(** * fastboot front end: command line to operation queue

    A shallow embedding of [fastboot.c]: the device matcher
    ([match_fastboot]), the file and archive loaders ([load_file],
    [unzip_file]), the package planner ([do_flashall]) and the command
    loop of [main], together with the properties the specification states
    about them.

    Conventions.
    - C integers are [Z]; where the source relies on a width, the
      wrap-around or the range is written out.
    - C strings are [string]; payload buffers are [list Byte.byte].
    - The process is a computation over the program's variables
      ([prog]); [die], [require] and undefined behaviour are explicit
      results of that computation ([res]). *)

From Stdlib Require Import ZArith List String Ascii Bool Lia.
From Stdlib Require Import Strings.Byte.
From Stdlib Require Import Floats.SpecFloat.
Import ListNotations.

Local Open Scope string_scope.
Local Open Scope list_scope.
Local Open Scope Z_scope.

(** ** Strings of the C library *)

Module CString.

Definition code (c : ascii) : Z := Z.of_N (N_of_ascii c).

(** [strcmp]: only the sign of the result is specified by C. *)
Fixpoint strcmp (a b : string) : Z :=
  match a, b with
  | EmptyString, EmptyString => 0
  | EmptyString, String _ _ => -1
  | String _ _, EmptyString => 1
  | String c a', String d b' =>
      if Ascii.eqb c d then strcmp a' b'
      else if code c <? code d then -1 else 1
  end.

(** [!strcmp(a, b)] *)
Definition streq (a b : string) : bool := strcmp a b =? 0.

Definition strlen (s : string) : Z := Z.of_nat (String.length s).

(** [strcat(dst, src)] into a buffer of [cap] bytes: the result and its
    terminating NUL have to fit, otherwise the call is undefined. *)
Definition strcat (cap : Z) (dst src : string) : option string :=
  if strlen dst + strlen src + 1 <=? cap then Some (dst ++ src)%string else None.

(** [isspace] in the "C" locale: space, \t, \n, \v, \f, \r. *)
Definition isspace (c : ascii) : bool :=
  (code c =? 32) || ((9 <=? code c) && (code c <=? 13)).

End CString.

Import CString.

(** ** The operation queue *)

Definition bytes := list Byte.byte.

(** Modelled from the spec: the queue lives in the engine, which is not
    part of [fastboot.c]; the front end only calls the [fb_queue_*]
    entry points.  An [action] records one such call with its arguments
    (the QueuedOperation variant of the data model), and the queue is
    the list of calls in call order. *)
Inductive action : Type :=
| Flash (ptn : string) (data : bytes) (sz : Z)
| Erase (ptn : string)
| Display (var prettyname : string)
| Notice (notice : string)
| Command (cmd msg : string)
| Reboot
| Download (name : string) (data : bytes) (sz : Z).

Definition queue := list action.

(** ** USB interface descriptor and match filter *)

(** Modelled from the spec: [usb_ifc_info] is declared in a header that
    is not part of [fastboot.c]; the record keeps the fields the source
    reads (the DeviceDescriptor of the data model). *)
Record usb_ifc_info : Type := {
  dev_vendor : Z;            (* unsigned short *)
  ifc_class : Z;             (* unsigned char *)
  ifc_subclass : Z;          (* unsigned char *)
  ifc_protocol : Z;          (* unsigned char *)
  writable : bool;
  serial_number : string
}.

(** ** Program variables

    The file-scope variables [serial] and [vendor_id], the engine's
    queue, and the two locals of [main] that survive the command loop. *)
Record prog : Type := {
  serial : option string;           (* const char *serial; 0 = not set *)
  vendor_id : Z;                    (* unsigned short; 0 = not set *)
  action_list : queue;
  wants_reboot : bool;
  wants_reboot_bootloader : bool
}.

Definition set_serial (s : option string) (p : prog) : prog :=
  {| serial := s; vendor_id := vendor_id p; action_list := action_list p;
     wants_reboot := wants_reboot p;
     wants_reboot_bootloader := wants_reboot_bootloader p |}.

Definition set_vendor_id (v : Z) (p : prog) : prog :=
  {| serial := serial p; vendor_id := v; action_list := action_list p;
     wants_reboot := wants_reboot p;
     wants_reboot_bootloader := wants_reboot_bootloader p |}.

Definition set_action_list (q : queue) (p : prog) : prog :=
  {| serial := serial p; vendor_id := vendor_id p; action_list := q;
     wants_reboot := wants_reboot p;
     wants_reboot_bootloader := wants_reboot_bootloader p |}.

Definition set_wants_reboot (b : bool) (p : prog) : prog :=
  {| serial := serial p; vendor_id := vendor_id p; action_list := action_list p;
     wants_reboot := b;
     wants_reboot_bootloader := wants_reboot_bootloader p |}.

Definition set_wants_reboot_bootloader (b : bool) (p : prog) : prog :=
  {| serial := serial p; vendor_id := vendor_id p; action_list := action_list p;
     wants_reboot := wants_reboot p;
     wants_reboot_bootloader := b |}.

(** ** Device matcher *)

(** [match_fastboot]: 0 accepts the interface, -1 rejects it. *)
Definition match_fastboot (p : prog) (info : usb_ifc_info) : Z :=
  if negb (negb (vendor_id p =? 0) && (dev_vendor info =? vendor_id p)) &&
     negb (dev_vendor info =? 0x18d1) &&
     negb (dev_vendor info =? 0x0451) &&
     negb (dev_vendor info =? 0x0502) &&
     negb (dev_vendor info =? 0x0fce) &&
     negb (dev_vendor info =? 0x05c6) &&
     negb (dev_vendor info =? 0x22b8) &&
     negb (dev_vendor info =? 0x0955) &&
     negb (dev_vendor info =? 0x413c) &&
     negb (dev_vendor info =? 0x8087) &&
     negb (dev_vendor info =? 0x0bb4)
  then -1
  else if negb (ifc_class info =? 0xff) then -1
  else if negb (ifc_subclass info =? 0x42) then -1
  else if negb (ifc_protocol info =? 0x03) then -1
  else match serial p with
       | Some s => if negb (strcmp s (serial_number info) =? 0) then -1 else 0
       | None => 0
       end.

(** The vendor ids the matcher accepts without an override. *)
Definition known_vendors : list Z :=
  [0x18d1; 0x0451; 0x0502; 0x0fce; 0x05c6; 0x22b8; 0x0955; 0x413c; 0x8087; 0x0bb4].

(** ** Results of a computation

    [die] prints "error: <formatted message>" and exits with status 1;
    [require] prints the usage text and exits with status 1.  A result
    keeps the program variables at the point where the process stops, so
    that what was queued before a fatal error stays visible. *)

Inductive res (A : Type) : Type :=
| Ret (a : A) (p : prog)
| Usage (status : Z)                                  (* usage(); exit(status) *)
| Die (fmt : string) (args : list string) (p : prog)  (* die(fmt, args...) *)
| Undef                                               (* behaviour undefined in C *)
| OutOfFuel.

Arguments Ret {A} a p.
Arguments Usage {A} status.
Arguments Die {A} fmt args p.
Arguments Undef {A}.
Arguments OutOfFuel {A}.

Definition M (A : Type) : Type := prog -> res A.

Definition ret {A} (a : A) : M A := fun p => Ret a p.

Definition bind {A B} (m : M A) (k : A -> M B) : M B :=
  fun p =>
    match m p with
    | Ret a p' => k a p'
    | Usage st => Usage st
    | Die fmt args p' => Die fmt args p'
    | Undef => Undef
    | OutOfFuel => OutOfFuel
    end.

Declare Scope prog_scope.
Delimit Scope prog_scope with prog.
Notation "x <- m ;; k" := (bind m (fun x => k))
  (at level 61, m at next level, right associativity) : prog_scope.
Notation "m ;; k" := (bind m (fun _ => k))
  (at level 61, right associativity) : prog_scope.
Local Open Scope prog_scope.

Definition modify (f : prog -> prog) : M unit := fun p => Ret tt (f p).

Definition die {A} (fmt : string) (args : list string) : M A :=
  fun p => Die fmt args p.

Definition undefined {A} : M A := fun _ => Undef.

(** What [die] writes after "error: ": the format with each [%s]
    replaced by the next argument. *)
Fixpoint format (fmt : string) (args : list string) : string :=
  match fmt with
  | String "%" (String "s" rest) =>
      match args with
      | a :: args' => (a ++ format rest args')%string
      | [] => format rest []
      end
  | String c rest => String c (format rest args)
  | EmptyString => EmptyString
  end.

(** ** Queue entry points *)

(** Modelled from the spec: every [fb_queue_*] entry point appends one
    operation at the end of the queue. *)
Definition queue_action (a : action) : M unit :=
  modify (fun p => set_action_list (action_list p ++ [a]) p).

Definition fb_queue_flash (ptn : string) (data : bytes) (sz : Z) : M unit :=
  queue_action (Flash ptn data sz).
Definition fb_queue_erase (ptn : string) : M unit := queue_action (Erase ptn).
Definition fb_queue_display (var prettyname : string) : M unit :=
  queue_action (Display var prettyname).
Definition fb_queue_notice (notice : string) : M unit := queue_action (Notice notice).
Definition fb_queue_command (cmd msg : string) : M unit := queue_action (Command cmd msg).
Definition fb_queue_reboot : M unit := queue_action Reboot.
Definition fb_queue_download (name : string) (data : bytes) (sz : Z) : M unit :=
  queue_action (Download name data sz).

(** ** Archive library *)

(** Modelled from the spec: the archive library is an external
    collaborator with the interface open / lookup / size / decompress.
    An entry carries its name, its nominal uncompressed size and the
    outcome of decompressing it into a buffer of a given capacity
    ([None] when [decompress_zipentry] reports failure). *)
Record zipentry : Type := {
  ze_name : string;
  ze_size : Z;
  ze_decompress : Z -> option bytes
}.

Definition zipfile := list zipentry.

Definition lookup_zipentry (zip : zipfile) (name : string) : option zipentry :=
  find (fun e => streq (ze_name e) name) zip.

Definition get_zipentry_size (e : zipentry) : Z := ze_size e.

Definition decompress_zipentry (e : zipentry) (bufsize : Z) : option bytes :=
  ze_decompress e bufsize.

(** ** Operating system

    The system calls [load_file] and [unzip_file] make, as the values
    they return to the program. *)
Record OS : Type := {
  sys_getenv : string -> option string;
  sys_open : string -> Z;               (* open(fn, O_RDONLY) *)
  sys_lseek_end : Z -> Z;               (* lseek(fd, 0, SEEK_END), an off_t *)
  sys_lseek_set : Z -> Z;               (* lseek(fd, 0, SEEK_SET) *)
  sys_malloc : Z -> bool;               (* malloc(n) != 0 *)
  sys_read : Z -> Z -> Z * bytes;       (* read(fd, data, n): result, data *)
  sys_strerror : string -> string;      (* strerror(errno) after loading fn failed *)
  init_zipfile : bytes -> Z -> option zipfile
}.

(** ** Numbers of the C library *)

Definition UINT_MAX : Z := 4294967295.
Definition ULONG_MAX : Z := 18446744073709551615.   (* LP64 *)

(** The value of a character as a digit: 0-9, then letters from 10. *)
Definition digit_of (c : ascii) : option Z :=
  let n := code c in
  if (48 <=? n) && (n <=? 57) then Some (n - 48)
  else if (97 <=? n) && (n <=? 122) then Some (n - 87)
  else if (65 <=? n) && (n <=? 90) then Some (n - 55)
  else None.

Definition digit_in (base : Z) (c : ascii) : option Z :=
  match digit_of c with
  | Some d => if d <? base then Some d else None
  | None => None
  end.

Fixpoint skip_spaces (s : string) : string :=
  match s with
  | String c s' => if isspace c then skip_spaces s' else s
  | EmptyString => s
  end.

(** The longest run of digits of [base] at the head of [s]: value
    accumulated, whether a digit was seen, and what follows. *)
Fixpoint scan_digits (base acc : Z) (seen : bool) (s : string) : Z * bool * string :=
  match s with
  | String c s' =>
      match digit_in base c with
      | Some d => scan_digits base (acc * base + d) true s'
      | None => (acc, seen, s)
      end
  | EmptyString => (acc, seen, s)
  end.

(** [strtoul(nptr, &endptr, 0)]: the value returned and the string
    [endptr] is left pointing at.  White space and one sign are skipped;
    "0x"/"0X" before a hexadecimal digit selects base 16, another leading
    "0" base 8, anything else base 10.  Without a digit nothing is
    converted and [endptr] is [nptr]; a value above [ULONG_MAX] yields
    [ULONG_MAX]; after a minus sign the value is negated as an
    [unsigned long]. *)
Definition skip_sign (s : string) : bool * string :=
  match s with
  | String c r =>
      if Ascii.eqb c "-" then (true, r)
      else if Ascii.eqb c "+" then (false, r)
      else (false, s)
  | EmptyString => (false, s)
  end.

Definition is_x (c : ascii) : bool := Ascii.eqb c "x" || Ascii.eqb c "X".

Definition is_digit_in (base : Z) (c : ascii) : bool :=
  match digit_in base c with Some _ => true | None => false end.

Definition pick_base (s : string) : Z * string :=
  match s with
  | String z (String x (String h r)) =>
      if Ascii.eqb z "0" && is_x x && is_digit_in 16 h then (16, String h r)
      else if Ascii.eqb z "0" then (8, s) else (10, s)
  | String z _ => if Ascii.eqb z "0" then (8, s) else (10, s)
  | EmptyString => (10, s)
  end.

Definition strtoul (nptr : string) : Z * string :=
  let '(neg, s2) := skip_sign (skip_spaces nptr) in
  let '(base, s3) := pick_base s2 in
  let '(acc, seen, rest) := scan_digits base 0 false s3 in
  if negb seen then (0, nptr)
  else if ULONG_MAX <? acc then (ULONG_MAX, rest)
  else if neg then ((- acc) mod (ULONG_MAX + 1), rest)
  else (acc, rest).

(** ** Double arithmetic of [unzip_file]

    [datasz = *sz * 1.001]: the unsigned size is converted to double,
    multiplied by the double nearest to 1.001 (round to nearest, ties to
    even), and the product is converted back to unsigned by truncation.
    The conversion back is undefined when the truncated value does not
    fit an unsigned. *)
Module Double.

Definition prec : Z := 53.
Definition emax : Z := 1024.

Definition of_unsigned (n : Z) : spec_float :=
  binary_normalize prec emax n 0 false.

(** 0x1.004189374bc6ap+0 *)
Definition c_1_001 : spec_float := S754_finite false 4508103226997866 (-52).

Definition mul (x y : spec_float) : spec_float := SFmul prec emax x y.

(** Truncation toward zero of a finite double. *)
Definition truncate (x : spec_float) : option Z :=
  match x with
  | S754_zero _ => Some 0
  | S754_finite s m e =>
      let a := if 0 <=? e then Zpos m * 2 ^ e else Zpos m / 2 ^ (- e) in
      Some (if s then - a else a)
  | _ => None
  end.

Definition to_unsigned (x : spec_float) : option Z :=
  match truncate x with
  | Some z => if (0 <=? z) && (z <=? UINT_MAX) then Some z else None
  | None => None
  end.

End Double.

(** The capacity [unzip_file] computes for an entry of nominal size [sz]. *)
Definition datasz_of (sz : Z) : option Z :=
  Double.to_unsigned (Double.mul (Double.of_unsigned sz) Double.c_1_001).

(** ** The program *)

Definition FW_DNX_BIN := "dnx.bin".
Definition IFWI_BIN := "ifwi.bin".
Definition NORMALOS_BIN := "stitch.normalos.bin".
Definition PREOS_BIN := "stitch.preos.bin".
Definition PLATFORM_IMG := "platform.img.gz".

Definition newline : string := String "010" EmptyString.

Inductive unzipped : Type :=
| Unzipped (data : bytes) (sz : Z)
| UnzipNull
| UnzipUndefined.

(** The conversion of an [off_t] to the [int] it is assigned to: the
    value modulo 2^32, as a signed number of 32 bits. *)
Definition to_int (z : Z) : Z := (z + 2147483648) mod 4294967296 - 2147483648.

Section Program.

Variable os : OS.

(** [load_file]: the data and [*_sz], or [None] for a null result.
    [sz] is an [int]. *)
Definition load_file (fn : string) : option (bytes * Z) :=
  let fd := sys_open os fn in
  if fd <? 0 then None
  else
    let sz := to_int (sys_lseek_end os fd) in
    if sz <? 0 then None
    else if negb (sys_lseek_set os fd =? 0) then None
    else if negb (sys_malloc os sz) then None
    else
      let '(n, data) := sys_read os fd sz in
      if negb (n =? sz) then None else Some (data, sz).

(** [unzip_file]: the data and [*sz], a null result, or no defined
    result at all (the capacity does not fit an unsigned). *)
Definition unzip_file (zip : zipfile) (name : string) : unzipped :=
  match lookup_zipentry zip name with
  | None => UnzipNull
  | Some entry =>
      let sz := get_zipentry_size entry mod (UINT_MAX + 1) in
      match datasz_of sz with
      | None => UnzipUndefined
      | Some datasz =>
          if negb (sys_malloc os datasz) then UnzipNull
          else
            match decompress_zipentry entry datasz with
            | None => UnzipNull
            | Some data => Unzipped data sz
            end
      end
  end.

Definition queue_info_dump : M unit :=
  fb_queue_notice "--------------------------------------------" ;;
  fb_queue_display "preos" "Current Pre-OS Version " ;;
  fb_queue_display "ifwi" "Current IFWI Version   " ;;
  fb_queue_notice "--------------------------------------------".

(** One block of [do_flashall]: unzip [name], die with [fmt] when the
    result is null, otherwise queue a flash of [ptn]. *)
Definition flash_entry (zip : zipfile) (name fmt ptn : string) : M unit :=
  match unzip_file zip name with
  | UnzipUndefined => undefined
  | UnzipNull => die fmt [name]
  | Unzipped data sz => fb_queue_flash ptn data sz
  end.

(** [do_flashall].  The call of [die] for an archive that does not open
    has a format with [%s] and no argument for it: its behaviour is not
    defined. *)
Definition do_flashall (fn : string) : M unit :=
  queue_info_dump ;;
  match load_file fn with
  | None => die "failed to load '%s': %s" [fn; sys_strerror os fn]
  | Some (zdata, zsize) =>
      match init_zipfile os zdata zsize with
      | None => undefined
      | Some zip =>
          flash_entry zip FW_DNX_BIN "package missing %s" "dnx" ;;
          flash_entry zip IFWI_BIN "package missing %s" "ifwi" ;;
          flash_entry zip NORMALOS_BIN "package missing %s" "boot" ;;
          flash_entry zip PREOS_BIN ("package missing %s" ++ newline)%string "preos" ;;
          flash_entry zip PLATFORM_IMG ("package missing %s" ++ newline)%string "platform"
      end
  end.

(** ** Command line *)

(** [argv[i]] of the remaining arguments; past the end the pointer is
    null and is not dereferenced by the program. *)
Definition arg (argv : list string) (i : nat) : string := nth i argv "".

Definition argc (argv : list string) : Z := Z.of_nat (List.length argv).

Definition skip (n : nat) (argv : list string) : list string := skipn n argv.

Definition require (n : Z) (argv : list string) : M unit :=
  fun p => if argc argv <? n then Usage 1 else Ret tt p.

(** The loop of [do_oem_command]: [command] is a buffer of 256 bytes. *)
Fixpoint oem_strcat (command : string) (argv : list string) : option string :=
  match argv with
  | [] => None
  | a :: rest =>
      match strcat 256 command a with
      | None => None
      | Some command1 =>
          match rest with
          | [] => Some command1
          | _ :: _ =>
              match strcat 256 command1 " " with
              | None => None
              | Some command2 => oem_strcat command2 rest
              end
          end
      end
  end.

(** [do_oem_command]: the value returned, which [main] stores in [argc]. *)
Definition do_oem_command (argv : list string) : M Z :=
  if argc argv <=? 1 then ret 0
  else
    match oem_strcat "" argv with
    | None => undefined
    | Some command => fb_queue_command command "" ;; ret 0
    end.

(** The body of the [while (argc > 0)] loop of [main]: the arguments
    left after one iteration. *)
Definition step (argv : list string) : M (list string) :=
  let a0 := arg argv 0 in
  if streq a0 "-s" then
    require 2 argv ;;
    modify (set_serial (Some (arg argv 1))) ;;
    ret (skip 2 argv)
  else if streq a0 "-i" then
    require 2 argv ;;
    let '(val, endptr) := strtoul (arg argv 1) in
    (if negb (streq endptr "") || negb (Z.land val (Z.lnot 0xffff) =? 0)
     then die "invalid vendor id '%s'" [arg argv 1] else ret tt) ;;
    modify (set_vendor_id (val mod 65536)) ;;
    ret (skip 2 argv)
  else if streq a0 "getvar" then
    require 2 argv ;;
    fb_queue_display (arg argv 1) (arg argv 1) ;;
    ret (skip 2 argv)
  else if streq a0 "erase" then
    require 2 argv ;;
    fb_queue_erase (arg argv 1) ;;
    ret (skip 2 argv)
  else if streq a0 "signature" then
    require 2 argv ;;
    match load_file (arg argv 1) with
    | None => die "could not load '%s': %s" [arg argv 1; sys_strerror os (arg argv 1)]
    | Some (data, sz) =>
        (if negb (sz =? 256) then die "signature must be 256 bytes" [] else ret tt) ;;
        fb_queue_download "signature" data sz ;;
        fb_queue_command "signature" "installing signature" ;;
        ret (skip 2 argv)
    end
  else if streq a0 "reboot" then
    modify (set_wants_reboot true) ;;
    ret (skip 1 argv)
  else if streq a0 "reboot-bootloader" then
    modify (set_wants_reboot_bootloader true) ;;
    ret (skip 1 argv)
  else if streq a0 "continue" then
    fb_queue_command "continue" "resuming boot" ;;
    ret (skip 1 argv)
  else if streq a0 "flash" then
    let pname := arg argv 1 in
    require 3 argv ;;
    let fname := arg argv 2 in
    match load_file fname with
    | None => die ("cannot load '%s': %s" ++ newline)%string [fname; sys_strerror os fname]
    | Some (data, sz) =>
        fb_queue_flash pname data sz ;;
        ret (skip 3 argv)
    end
  else if streq a0 "flashall" then
    require 2 argv ;;
    do_flashall (arg argv 1) ;;
    modify (set_wants_reboot true) ;;
    ret (skip 2 argv)
  else if streq a0 "oem" then
    n <- do_oem_command argv ;;
    ret (firstn (Z.to_nat n) argv)
  else
    fun _ => Usage 1.

(** [while (argc > 0) { ... }] *)
Fixpoint command_loop (fuel : nat) (argv : list string) : M unit :=
  match argv with
  | [] => ret tt
  | _ :: _ =>
      match fuel with
      | O => fun _ => OutOfFuel
      | S fuel' => argv' <- step argv ;; command_loop fuel' argv'
      end
  end.

(** The deferred reboot, queued after the loop. *)
Definition queue_reboot : M unit :=
  fun p =>
    if wants_reboot p then fb_queue_reboot p
    else if wants_reboot_bootloader p
         then fb_queue_command "reboot-bootloader" "rebooting into bootloader" p
         else Ret tt p.

(** How the process ends. *)
Inductive outcome : Type :=
| ExitUsage (status : Z)           (* usage(); return status *)
| ExitDevices                      (* list_devices(); return 0 *)
| ExitDie (fmt : string) (args : list string) (p : prog)
| RunQueue (p : prog)              (* open_device(); fb_execute_queue(usb) *)
| Undefined
| Diverges.

Definition initial : prog :=
  {| serial := sys_getenv os "ANDROID_SERIAL"; vendor_id := 0; action_list := [];
     wants_reboot := false; wants_reboot_bootloader := false |}.

(** [main], on the whole of [argv] (program name first). *)
Definition main (argv : list string) : outcome :=
  match argv with
  | [] => Undefined
  | _ :: argv =>
      match argv with
      | [] => ExitUsage 1
      | a0 :: _ =>
          if streq a0 "devices" then ExitDevices
          else if streq a0 "help" then ExitUsage 0
          else
            match (command_loop (List.length argv) argv ;; queue_reboot) initial with
            | Ret _ p => RunQueue p
            | Usage st => ExitUsage st
            | Die fmt args p => ExitDie fmt args p
            | Undef => Undefined
            | OutOfFuel => Diverges
            end
      end
  end.

End Program.

(** ** Numbers of the specification

    The second reading of the [-i] argument: "parseable as an unsigned
    16-bit value".  A string is a number when, after optional white
    space and an optional plus sign, all of it is an integer constant of
    C (hexadecimal digits after "0x", octal digits after a leading "0",
    decimal digits otherwise) whose value is at most 0xffff. *)
Module Numeral.

(** The value of [s] when every character is a digit of [base]. *)
Fixpoint digits (base acc : Z) (s : string) : option Z :=
  match s with
  | EmptyString => Some acc
  | String c s' =>
      match digit_in base c with
      | Some d => digits base (acc * base + d) s'
      | None => None
      end
  end.

(** At least one digit. *)
Definition number (base : Z) (s : string) : option Z :=
  match s with
  | EmptyString => None
  | String _ _ => digits base 0 s
  end.

Definition constant (s : string) : option Z :=
  match s with
  | String z rest =>
      if Ascii.eqb z "0" then
        match rest with
        | String x r => if is_x x then number 16 r else number 8 s
        | EmptyString => number 8 s
        end
      else number 10 s
  | EmptyString => None
  end.

Definition parse_u16 (s : string) : option Z :=
  let s1 := skip_spaces s in
  let s2 :=
    match s1 with
    | String c r => if Ascii.eqb c "+" then r else s1
    | EmptyString => s1
    end in
  match constant s2 with
  | Some v => if v <=? 65535 then Some v else None
  | None => None
  end.

(** The first character after white space is a minus sign. *)
Definition minus_signed (s : string) : bool :=
  match skip_spaces s with
  | String c _ => Ascii.eqb c "-"
  | EmptyString => false
  end.

End Numeral.

(** ** The command table of the specification

    The second reading of the command line: the table of recognised
    commands with their arities and effects, the package plan and the
    fixed manifest, written from the specification's words.  The
    program is compared with it below. *)
Module Table.

Inductive cmd : Type :=
| OptSerial (s : string)
| OptVendor (v : string)
| Getvar (name : string)
| EraseCmd (ptn : string)
| Signature (file : string)
| RebootCmd
| RebootBootloader
| Continue
| FlashCmd (ptn file : string)
| Flashall (package : string)
| Oem (words : list string).

(** The leading token's command and the tokens left after its arity,
    when the token is recognised and enough tokens follow. *)
Definition parse_head (toks : list string) : option (cmd * list string) :=
  match toks with
  | [] => None
  | t :: rest =>
      if String.eqb t "-s" then
        match rest with a :: r => Some (OptSerial a, r) | [] => None end
      else if String.eqb t "-i" then
        match rest with a :: r => Some (OptVendor a, r) | [] => None end
      else if String.eqb t "getvar" then
        match rest with a :: r => Some (Getvar a, r) | [] => None end
      else if String.eqb t "erase" then
        match rest with a :: r => Some (EraseCmd a, r) | [] => None end
      else if String.eqb t "signature" then
        match rest with a :: r => Some (Signature a, r) | [] => None end
      else if String.eqb t "reboot" then Some (RebootCmd, rest)
      else if String.eqb t "reboot-bootloader" then Some (RebootBootloader, rest)
      else if String.eqb t "continue" then Some (Continue, rest)
      else if String.eqb t "flash" then
        match rest with a :: b :: r => Some (FlashCmd a b, r) | _ => None end
      else if String.eqb t "flashall" then
        match rest with a :: r => Some (Flashall a, r) | [] => None end
      else if String.eqb t "oem" then Some (Oem rest, [])
      else None
  end.

(** The whole token stream, left to right. *)
Fixpoint parse_fuel (fuel : nat) (toks : list string) : option (list cmd) :=
  match toks with
  | [] => Some []
  | _ :: _ =>
      match fuel with
      | O => None
      | S fuel' =>
          match parse_head toks with
          | Some (c, rest) => option_map (cons c) (parse_fuel fuel' rest)
          | None => None
          end
      end
  end.

Definition parse (toks : list string) : option (list cmd) :=
  parse_fuel (List.length toks) toks.

(** The fixed manifest: archive entry and target partition, in order. *)
Definition manifest : list (string * string) :=
  [("dnx.bin", "dnx"); ("ifwi.bin", "ifwi"); ("stitch.normalos.bin", "boot");
   ("stitch.preos.bin", "preos"); ("platform.img.gz", "platform")].

Definition separator : string := "--------------------------------------------".

(** The two informational queries, bracketed by notices. *)
Definition info_dump : list action :=
  [Notice separator; Display "preos" "Current Pre-OS Version ";
   Display "ifwi" "Current IFWI Version   "; Notice separator].

Definition reboot_bootloader_op : action :=
  Command "reboot-bootloader" "rebooting into bootloader".

Definition is_reboot_op (a : action) : bool :=
  match a with
  | Reboot => true
  | Command c _ => String.eqb c "reboot-bootloader"
  | _ => false
  end.

Section Effects.

Variable os : OS.

Definition extract_entry (zip : zipfile) (name : string) : option (bytes * Z) :=
  match unzip_file os zip name with
  | Unzipped data sz => Some (data, sz)
  | _ => None
  end.

(** One Flash per manifest entry, in manifest order; nothing when an
    entry cannot be extracted. *)
Fixpoint plan_flashes (zip : zipfile) (m : list (string * string))
  : option (list action) :=
  match m with
  | [] => Some []
  | (name, ptn) :: m' =>
      match extract_entry zip name with
      | Some (data, sz) => option_map (cons (Flash ptn data sz)) (plan_flashes zip m')
      | None => None
      end
  end.

(** Loading a file: its entire content and its size, or nothing for a
    missing file, a seek failure, an allocation failure or a short
    read. *)
Definition read_file (path : string) : option (bytes * Z) :=
  let fd := sys_open os path in
  if fd <? 0 then None
  else
    let size := sys_lseek_end os fd in
    if size <? 0 then None
    else if negb (sys_lseek_set os fd =? 0) then None
    else if negb (sys_malloc os size) then None
    else
      let '(n, data) := sys_read os fd size in
      if n =? size then Some (data, size) else None.

Definition plan_package (path : string) : option (list action) :=
  match read_file path with
  | None => None
  | Some (zdata, zsize) =>
      match init_zipfile os zdata zsize with
      | None => None
      | Some zip => option_map (app info_dump) (plan_flashes zip manifest)
      end
  end.

(** A vendor id argument is acceptable when it is parseable as an
    unsigned 16-bit value. *)
Definition vendor_ok (v : string) : bool :=
  match Numeral.parse_u16 v with
  | Some _ => true
  | None => false
  end.

(** The operations a command appends; [None] when the command is
    fatal. *)
Definition effect (c : cmd) : option (list action) :=
  match c with
  | OptSerial _ => Some []
  | OptVendor v => if vendor_ok v then Some [] else None
  | Getvar name => Some [Display name name]
  | EraseCmd ptn => Some [Erase ptn]
  | Signature file =>
      match read_file file with
      | Some (data, sz) =>
          if sz =? 256
          then Some [Download "signature" data sz;
                     Command "signature" "installing signature"]
          else None
      | None => None
      end
  | RebootCmd => Some []
  | RebootBootloader => Some []
  | Continue => Some [Command "continue" "resuming boot"]
  | FlashCmd ptn file =>
      match read_file file with
      | Some (data, sz) => Some [Flash ptn data sz]
      | None => None
      end
  | Flashall package => plan_package package
  | Oem words => Some [Command (String.concat " " ("oem" :: words)) ""]
  end.

Fixpoint effects (cs : list cmd) : option (list action) :=
  match cs with
  | [] => Some []
  | c :: cs' =>
      match effect c, effects cs' with
      | Some a, Some b => Some (a ++ b)
      | _, _ => None
      end
  end.

End Effects.

Definition sets_reboot (c : cmd) : bool :=
  match c with RebootCmd | Flashall _ => true | _ => false end.

Definition sets_reboot_bootloader (c : cmd) : bool :=
  match c with RebootBootloader => true | _ => false end.

(** The deferred intents, resolved: plain reboot first. *)
Definition trailing (wants_reboot wants_reboot_bootloader : bool) : list action :=
  if wants_reboot then [Reboot]
  else if wants_reboot_bootloader then [reboot_bootloader_op]
  else [].

Definition queue_of (os : OS) (cs : list cmd) : option (list action) :=
  match effects os cs with
  | Some q =>
      Some (q ++ trailing (existsb sets_reboot cs)
                          (existsb sets_reboot_bootloader cs))
  | None => None
  end.

(** An [oem] command with at least one word whose joined text fits the
    255 characters of the command buffer. *)
Definition oem_ok (c : cmd) : Prop :=
  match c with
  | Oem words =>
      words <> [] /\ strlen (String.concat " " ("oem" :: words)) <= 255
  | _ => True
  end.

End Table.

(** The queue [main] hands to the engine, when it gets there. *)
Definition queue_built (os : OS) (argv : list string) : option (list action) :=
  match main os argv with
  | RunQueue p => Some (action_list p)
  | _ => None
  end.

(** ** Auxiliary definitions for the statements *)

(** The program variables after a command of the table that appended
    [ops]. *)
Definition after (c : Table.cmd) (ops : list action) (p : prog) : prog :=
  {| serial := match c with Table.OptSerial s => Some s | _ => serial p end;
     vendor_id :=
       match c with
       | Table.OptVendor v => fst (strtoul v) mod 65536
       | _ => vendor_id p
       end;
     action_list := action_list p ++ ops;
     wants_reboot := wants_reboot p || Table.sets_reboot c;
     wants_reboot_bootloader :=
       wants_reboot_bootloader p || Table.sets_reboot_bootloader c |}.

(** The test of [main] on a [-i] argument: [strtoul] has read all of it
    and the value has no bit above the low sixteen. *)
Definition strtoul_ok (v : string) : bool :=
  let '(val, rest) := strtoul v in
  String.eqb rest "" && (val <=? 65535).

(** What [do_flashall] appends when it returns. *)
Definition run_package (os : OS) (fn : string) : option (list action) :=
  match load_file os fn with
  | None => None
  | Some (zdata, zsize) =>
      match init_zipfile os zdata zsize with
      | None => None
      | Some zip => option_map (app Table.info_dump) (Table.plan_flashes os zip Table.manifest)
      end
  end.

(** What the program appends for a command when the iteration returns:
    the effect of the table, with a [-i] argument judged by the
    program's own test and files loaded by [load_file]. *)
Definition run_effect (os : OS) (c : Table.cmd) : option (list action) :=
  match c with
  | Table.OptVendor v => if strtoul_ok v then Some [] else None
  | Table.Signature file =>
      match load_file os file with
      | Some (data, sz) =>
          if sz =? 256
          then Some [Download "signature" data sz;
                     Command "signature" "installing signature"]
          else None
      | None => None
      end
  | Table.FlashCmd ptn file =>
      match load_file os file with
      | Some (data, sz) => Some [Flash ptn data sz]
      | None => None
      end
  | Table.Flashall package => run_package os package
  | _ => Table.effect os c
  end.




(** The five blocks of [do_flashall] as a table: entry, format of the
    fatal message, partition. *)
Definition flash_table : list (string * string * string) :=
  [(FW_DNX_BIN, "package missing %s", "dnx");
   (IFWI_BIN, "package missing %s", "ifwi");
   (NORMALOS_BIN, "package missing %s", "boot");
   (PREOS_BIN, ("package missing %s" ++ newline)%string, "preos");
   (PLATFORM_IMG, ("package missing %s" ++ newline)%string, "platform")].

Fixpoint flash_blocks (os : OS) (zip : zipfile) (bs : list (string * string * string))
  : M unit :=
  match bs with
  | [] => ret tt
  | (name, fmt, ptn) :: bs' => flash_entry os zip name fmt ptn ;; flash_blocks os zip bs'
  end.

(** [n] iterations of the command loop. *)
Fixpoint steps (os : OS) (n : nat) (argv : list string) : M (list string) :=
  match n with
  | O => ret argv
  | S n' => argv' <- step os argv ;; steps os n' argv'
  end.

(** The flashes queued for the blocks [bs] when entry [name] unzips to
    [ex name]. *)
Definition flashes_of (ex : string -> bytes * Z) (bs : list (string * string * string))
  : list action :=
  map (fun b => Flash (snd b) (fst (ex (fst (fst b)))) (snd (ex (fst (fst b))))) bs.

(** A result that ends the process without a queue to run: a fatal
    error or undefined behaviour. *)
Definition fatal {A} (r : res A) : Prop :=
  match r with
  | Die _ _ _ | Undef => True
  | _ => False
  end.

(** One iteration of the loop, read against the commands of the table
    and what the program appends for them. *)
Inductive step_spec (os : OS) (argv : list string) (p : prog)
  : res (list string) -> Prop :=
| step_unrecognised :
    Table.parse_head argv = None ->
    step_spec os argv p (Usage 1)
| step_done c rest ops :
    Table.parse_head argv = Some (c, rest) ->
    run_effect os c = Some ops ->
    Table.oem_ok c ->
    step_spec os argv p (Ret rest (after c ops p))
| step_fatal c rest r :
    Table.parse_head argv = Some (c, rest) ->
    run_effect os c = None ->
    fatal r ->
    step_spec os argv p r
| step_oem_alone :
    Table.parse_head argv = Some (Table.Oem [], []) ->
    step_spec os argv p (Ret [] p)
| step_oem_overflow words :
    Table.parse_head argv = Some (Table.Oem words, []) ->
    words <> [] ->
    255 < strlen (String.concat " " ("oem" :: words)) ->
    step_spec os argv p Undef.

(** What [strtoul] returns without a minus sign, once base and digits
    are chosen. *)
Definition finish (nptr : string) (base : Z) (s3 : string) : Z * string :=
  let '(acc, seen, rest) := scan_digits base 0 false s3 in
  if negb seen then (0, nptr)
  else if ULONG_MAX <? acc then (ULONG_MAX, rest)
  else (acc, rest).

(** The test of [main] on what [strtoul] returned. *)
Definition accepted (r : Z * string) : bool :=
  String.eqb (snd r) "" && (fst r <=? 65535).

(** ** Sample environments *)

Module Sample.

(** An entry of four bytes that decompresses, or not. *)
Definition entry (name : string) (good : bool) : zipentry :=
  {| ze_name := name; ze_size := 4;
     ze_decompress := fun _ => if good then Some [x00; x01; x02; x03] else None |}.

(** All five manifest entries, intact. *)
Definition full_zip : zipfile :=
  [entry "dnx.bin" true; entry "ifwi.bin" true; entry "stitch.normalos.bin" true;
   entry "stitch.preos.bin" true; entry "platform.img.gz" true].

(** All five manifest entries, the first one damaged. *)
Definition damaged_zip : zipfile :=
  [entry "dnx.bin" false; entry "ifwi.bin" true; entry "stitch.normalos.bin" true;
   entry "stitch.preos.bin" true; entry "platform.img.gz" true].

(** [ifwi.bin] is missing. *)
Definition partial_zip : zipfile :=
  [entry "dnx.bin" true; entry "stitch.normalos.bin" true;
   entry "stitch.preos.bin" true; entry "platform.img.gz" true].

(** [ifwi.bin] is missing and [dnx.bin] is damaged. *)
Definition damaged_partial_zip : zipfile :=
  [entry "dnx.bin" false; entry "stitch.normalos.bin" true;
   entry "stitch.preos.bin" true; entry "platform.img.gz" true].

(** A system in which [files] are the readable files, each of [size]
    bytes, and every blob opens as the archive [zip]. *)
Definition sized (size : Z) (files : string -> option bytes) (zip : zipfile) : OS :=
  {| sys_getenv := fun _ => None;
     sys_open := fun fn => match files fn with Some _ => 3 | None => -1 end;
     sys_lseek_end := fun _ => size;
     sys_lseek_set := fun _ => 0;
     sys_malloc := fun _ => true;
     sys_read := fun _ n => (n, []);
     sys_strerror := fun _ => "No such file or directory";
     init_zipfile := fun _ _ => Some zip |}.

Definition system := sized 0.

(** A system whose one file, [sig.bin], has 2^32 + 256 bytes, all zero. *)
Definition big_signature : OS :=
  {| sys_getenv := fun _ => None;
     sys_open := fun fn => if String.eqb fn "sig.bin" then 3 else -1;
     sys_lseek_end := fun _ => 4294967552;
     sys_lseek_set := fun _ => 0;
     sys_malloc := fun _ => true;
     sys_read := fun _ n => (n, repeat x00 (Z.to_nat n));
     sys_strerror := fun _ => "No such file or directory";
     init_zipfile := fun _ _ => None |}.

Definition only (name : string) (fn : string) : option bytes :=
  if String.eqb fn name then Some [] else None.

Definition no_files (fn : string) : option bytes := None.

Definition contents (name : string) : bytes * Z := ([x00; x01; x02; x03], 4).

(** An entry of one byte that decompresses only into a buffer of
    exactly one byte. *)
Definition one_byte_entry : zipentry :=
  {| ze_name := "boot.img"; ze_size := 1;
     ze_decompress := fun cap => if cap =? 1 then Some [x2a] else None |}.

(** The capacity computed for each size from 0 to 1000 is the size. *)
Definition small_sizes_checked : bool :=
  forallb (fun n => match datasz_of (Z.of_nat n) with
                    | Some c => c =? Z.of_nat n
                    | None => false
                    end) (seq 0 1001).

End Sample.

(** ** Device discovery *)

(** What the process writes and how it waits. *)
Inductive event : Type :=
| Stdout (text : string)
| Stderr (text : string)
| Sleep (seconds : Z).

(** Modelled from the spec: [usb_open] belongs to the USB layer, which is
    not part of [fastboot.c].  It offers every connected interface, in
    enumeration order, to the callback and returns a handle for the
    first one the callback accepts (returns 0 for), or null.  A handle is
    the descriptor of the interface it was opened for; the callback's
    output is collected in call order. *)
Fixpoint usb_open (callback : usb_ifc_info -> Z * list event) (bus : list usb_ifc_info)
  : option usb_ifc_info * list event :=
  match bus with
  | [] => (None, [])
  | info :: bus' =>
      let '(r, out) := callback info in
      if r =? 0 then (Some info, out)
      else let '(usb, out') := usb_open callback bus' in (usb, out ++ out')
  end.

Definition tab : string := String "009" EmptyString.

(** [list_devices_callback]: the value returned and the line printed. *)
Definition list_devices_callback (p : prog) (info : usb_ifc_info) : Z * list event :=
  if match_fastboot p info =? 0 then
    let serial := serial_number info in
    let serial := if negb (writable info) then "no permissions" else serial in
    let serial := match serial with EmptyString => "????????????" | String _ _ => serial end in
    (-1, [Stdout (serial ++ tab ++ "fastboot" ++ newline)%string])
  else (-1, []).

(** The name a device is listed under. *)
Definition device_label (info : usb_ifc_info) : string :=
  if writable info then
    if String.eqb (serial_number info) "" then "????????????" else serial_number info
  else "no permissions".

Definition list_devices (p : prog) (bus : list usb_ifc_info) : option usb_ifc_info * list event :=
  usb_open (list_devices_callback p) bus.

(** The loop of [open_device]: [bus_at t] is what is connected at the
    [t]-th poll since the process started.  The result is the handle
    together with the number of polls made so far, or nothing when the
    fuel is used up before a device is found. *)
Fixpoint open_device_loop (p : prog) (bus_at : nat -> list usb_ifc_info)
  (fuel t : nat) (announce : bool) : option (usb_ifc_info * nat) * list event :=
  match fuel with
  | O => (None, [])
  | S fuel' =>
      match fst (usb_open (fun info => (match_fastboot p info, [])) (bus_at t)) with
      | Some usb => (Some (usb, S t), [])
      | None =>
          let out := if announce then [Stderr ("< waiting for device >" ++ newline)%string]
                     else [] in
          let '(r, out') := open_device_loop p bus_at fuel' (S t) false in
          (r, out ++ Sleep 1 :: out')
      end
  end.

(** [open_device]: [usb] is the function's static variable. *)
Definition open_device (p : prog) (bus_at : nat -> list usb_ifc_info)
  (fuel : nat) (usb : option usb_ifc_info) (t : nat)
  : option (usb_ifc_info * nat) * list event :=
  match usb with
  | Some h => (Some (h, t), [])
  | None => open_device_loop p bus_at fuel t true
  end.

(** The file-scope variables when [main] starts: no serial, no vendor
    override, nothing queued. *)
Definition startup : prog :=
  {| serial := None; vendor_id := 0; action_list := [];
     wants_reboot := false; wants_reboot_bootloader := false |}.

(** [main] with the device discovery it goes on to: [list_devices] for
    the [devices] command, called before [serial] is assigned, with the
    file-scope variables as [startup] has them; [open_device] after the
    command loop and the deferred reboot, with the variables the loop
    left.  The result is how [main] ends and what discovery has printed
    or slept; the texts of [usage] and [die] are not part of it. *)
Definition discovery (os : OS) (bus_at : nat -> list usb_ifc_info) (fuel : nat)
  (argv : list string) : outcome * list event :=
  match main os argv with
  | ExitDevices => (ExitDevices, snd (list_devices startup (bus_at O)))
  | RunQueue p => (RunQueue p, snd (open_device p bus_at fuel None O))
  | o => (o, [])
  end.

(** An interface of a known vendor with the fastboot class, subclass
    and protocol. *)
Definition known_fastboot (info : usb_ifc_info) : bool :=
  existsb (Z.eqb (dev_vendor info)) known_vendors &&
  (ifc_class info =? 0xff) && (ifc_subclass info =? 0x42) && (ifc_protocol info =? 0x03).

(** A fastboot interface of a known vendor. *)
Definition sample_device : usb_ifc_info :=
  {| dev_vendor := 0x18d1; ifc_class := 0xff; ifc_subclass := 0x42; ifc_protocol := 0x03;
     writable := true; serial_number := "0123456789" |}.

(** A bus on which [sample_device] is plugged in before the third poll. *)
Definition late_bus (t : nat) : list usb_ifc_info :=
  if (t <? 2)%nat then [] else [sample_device].

(** An entry with a nominal size of 4290676620 bytes. *)
Definition huge_entry : zipentry :=
  {| ze_name := "system.img"; ze_size := 4290676620; ze_decompress := fun _ => None |}.

(** ** [strip] *)

(** The second loop of [strip]: [n] counts down from the length, and a
    NUL stored at [s[n]] cuts the string there. *)
Fixpoint strip_tail (n : nat) (s : string) : string :=
  match n with
  | O => s
  | S n' =>
      match String.get n' s with
      | Some c => if isspace c then strip_tail n' (String.substring 0 n' s) else s
      | None => s
      end
  end.

Definition strip (s : string) : string :=
  let s1 := skip_spaces s in
  strip_tail (String.length s1) s1.

(** The string without its trailing white space. *)
Fixpoint rstrip (s : string) : string :=
  match s with
  | EmptyString => EmptyString
  | String c s' =>
      match rstrip s' with
      | EmptyString => if isspace c then EmptyString else String c EmptyString
      | String d r => String c (String d r)
      end
  end.

(** Every character is white space. *)
Fixpoint all_space (s : string) : bool :=
  match s with
  | EmptyString => true
  | String c s' => isspace c && all_space s'
  end.

(** The last character, if any. *)
Fixpoint last_char (s : string) : option ascii :=
  match s with
  | EmptyString => None
  | String c EmptyString => Some c
  | String _ s' => last_char s'
  end.

(** ** [do_send_signature] *)

(** [strrchr(s, c)] for a [c] other than NUL: the string split before the
    last [c], or [None] for a null result. *)
Fixpoint strrchr (s : string) (c : ascii) : option (string * string) :=
  match s with
  | EmptyString => None
  | String d s' =>
      match strrchr s' c with
      | Some (before, from) => Some (String d before, from)
      | None => if Ascii.eqb d c then Some (EmptyString, s) else None
      end
  end.

(** [do_send_signature]: the result is what the buffer [fn] holds when
    the function returns. *)
Definition do_send_signature (os : OS) (fn : string) : M string :=
  match strrchr fn "." with
  | None => ret fn
  | Some (base, xtn) =>
      if negb (strcmp xtn ".img" =? 0) then ret fn
      else
        let sig := (base ++ ".sig")%string in
        let r := load_file os sig in
        let img := (base ++ ".img")%string in
        match r with
        | None => ret img
        | Some (data, sz) =>
            fb_queue_download "signature" data sz ;;
            fb_queue_command "signature" "installing signature" ;;
            ret img
        end
  end.

(** ** Resources of [load_file] *)

Inductive resource_event : Type :=
| Opened (fd : Z)
| Closed (fd : Z)
| Allocated (size : Z)
| Freed (size : Z).

(** [load_file] with the descriptors and buffers it takes and gives
    back. *)
Definition load_file_resources (os : OS) (fn : string)
  : list resource_event * option (bytes * Z) :=
  let fd := sys_open os fn in
  if fd <? 0 then ([], None)
  else
    let sz := to_int (sys_lseek_end os fd) in
    if sz <? 0 then ([Opened fd; Closed fd], None)
    else if negb (sys_lseek_set os fd =? 0) then ([Opened fd; Closed fd], None)
    else if negb (sys_malloc os sz) then ([Opened fd; Closed fd], None)
    else
      let '(n, data) := sys_read os fd sz in
      if negb (n =? sz) then ([Opened fd; Allocated sz; Closed fd; Freed sz], None)
      else ([Opened fd; Allocated sz; Closed fd], Some (data, sz)).

(** The descriptors still open and the buffers still allocated after
    the events [ev], starting from [fds] and [bufs]. *)
Fixpoint leftover (fds bufs : list Z) (ev : list resource_event) : list Z * list Z :=
  match ev with
  | [] => (fds, bufs)
  | Opened fd :: ev' => leftover (fd :: fds) bufs ev'
  | Closed fd :: ev' => leftover (remove Z.eq_dec fd fds) bufs ev'
  | Allocated sz :: ev' => leftover fds (sz :: bufs) ev'
  | Freed sz :: ev' => leftover fds (remove Z.eq_dec sz bufs) ev'
  end.

(** ** Invariants of the queue *)

(** What [main] may queue: a download is a signature of 256 bytes, a
    flash has a length that is not negative, and the text of a command
    fits the 256 bytes of the oem buffer. *)
Definition well_formed_action (a : action) : Prop :=
  match a with
  | Download name _ sz => name = "signature" /\ sz = 256
  | Flash _ _ sz => 0 <= sz
  | Command cmd _ => strlen cmd <= 255
  | _ => True
  end.

(** The serial filter after the commands [cs]: the last [-s] wins. *)
Definition serial_after (cs : list Table.cmd) (s0 : option string) : option string :=
  fold_left (fun s c => match c with Table.OptSerial a => Some a | _ => s end) cs s0.

(** The vendor id after the commands [cs]: the last [-i] wins. *)
Definition vendor_after (cs : list Table.cmd) (v0 : Z) : Z :=
  fold_left (fun v c => match c with
                        | Table.OptVendor a => fst (strtoul a) mod 65536
                        | _ => v
                        end) cs v0.

(** The queue of [p'] is the queue of [p] with operations added at the
    end. *)
Definition extends (p p' : prog) : Prop :=
  exists ops, action_list p' = action_list p ++ ops.

(** A computation that, where it leaves program variables behind, has
    only added to the end of the queue. *)
Definition append_only {A} (m : M A) : Prop :=
  forall p,
    match m p with
    | Ret _ p' | Die _ _ p' => extends p p'
    | _ => True
    end.

Definition is_oem (c : Table.cmd) : bool :=
  match c with Table.Oem _ => true | _ => false end.

(** ** Properties of the matcher *)

Lemma strcmp_eq (a b : string) : strcmp a b = 0 <-> a = b.
Proof.
  revert b; induction a as [|c a IH]; intros [|d b]; simpl;
    try (split; [lia | discriminate]); [tauto|].
  destruct (Ascii.eqb_spec c d) as [->|Hne].
  - rewrite IH. split; [intros ->; reflexivity | intros [= ->]; reflexivity].
  - split; [destruct (code c <? code d); lia | intros [= -> _]; contradiction].
Qed.

(** C2. [match_fastboot] accepts a descriptor exactly when the vendor is
    the (set) override or one of the known vendors, the interface triple
    is (0xff, 0x42, 0x03), and the serial filter is unset or equal to the
    descriptor's serial string. *)
Theorem match_fastboot_iff (p : prog) (info : usb_ifc_info) :
  match_fastboot p info = 0 <->
  ((vendor_id p <> 0 /\ dev_vendor info = vendor_id p) \/
     In (dev_vendor info) known_vendors) /\
  (ifc_class info = 0xff /\ ifc_subclass info = 0x42 /\ ifc_protocol info = 0x03) /\
  (serial p = None \/ serial p = Some (serial_number info)).
Proof.
  unfold match_fastboot.
  match goal with |- context [if ?c then -1 else _] => set (reject := c) end.
  assert (Hv : reject = false <->
               (vendor_id p <> 0 /\ dev_vendor info = vendor_id p) \/
                 In (dev_vendor info) known_vendors).
  { unfold reject, known_vendors; simpl In.
    rewrite !andb_false_iff, !negb_false_iff, andb_true_iff, negb_true_iff,
      !Z.eqb_eq, Z.eqb_neq.
    split; intros H; decompose [or] H; auto 20; try contradiction. }
  destruct reject.
  { split; [discriminate | intros [H _]; apply Hv in H; discriminate]. }
  destruct (Z.eqb_spec (ifc_class info) 0xff) as [Ec|Ec]; simpl;
    [| split; [discriminate | tauto]].
  destruct (Z.eqb_spec (ifc_subclass info) 0x42) as [Es|Es]; simpl;
    [| split; [discriminate | tauto]].
  destruct (Z.eqb_spec (ifc_protocol info) 0x03) as [Ep|Ep]; simpl;
    [| split; [discriminate | tauto]].
  assert (Hv' := proj1 Hv eq_refl).
  destruct (serial p) as [s|].
  - destruct (Z.eqb_spec (strcmp s (serial_number info)) 0) as [E|E]; simpl.
    + apply strcmp_eq in E; subst s. tauto.
    + split; [discriminate|].
      intros (_ & _ & [Hs|Hs]); [discriminate|].
      injection Hs as ->. exfalso; apply E, strcmp_eq; reflexivity.
  - tauto.
Qed.

(** ** Basic facts about the computation *)

Lemma streq_eqb (a b : string) : streq a b = String.eqb a b.
Proof.
  unfold streq. destruct (String.eqb_spec a b) as [->|H].
  - apply Z.eqb_eq, strcmp_eq; reflexivity.
  - apply Z.eqb_neq. intros E; apply H, strcmp_eq, E.
Qed.

Lemma bind_ret {A B} (m : M A) (k : A -> M B) (p p' : prog) (a : A) :
  m p = Ret a p' -> bind m k p = k a p'.
Proof. unfold bind; intros ->; reflexivity. Qed.

Lemma bind_die {A B} (m : M A) (k : A -> M B) (p p' : prog) fmt args :
  m p = Die fmt args p' -> bind m k p = Die fmt args p'.
Proof. unfold bind; intros ->; reflexivity. Qed.

Lemma bind_usage {A B} (m : M A) (k : A -> M B) (p : prog) st :
  m p = Usage st -> bind m k p = Usage st.
Proof. unfold bind; intros ->; reflexivity. Qed.

Lemma bind_undef {A B} (m : M A) (k : A -> M B) (p : prog) :
  m p = Undef -> bind m k p = Undef.
Proof. unfold bind; intros ->; reflexivity. Qed.

Lemma require_ok (n : Z) (argv : list string) (p : prog) :
  n <= argc argv -> require n argv p = Ret tt p.
Proof. unfold require; intros H. destruct (Z.ltb_spec (argc argv) n); [lia | reflexivity]. Qed.

Lemma require_fail (n : Z) (argv : list string) (p : prog) :
  argc argv < n -> require n argv p = Usage 1.
Proof. unfold require; intros H. destruct (Z.ltb_spec (argc argv) n); [reflexivity | lia]. Qed.

Lemma argc_cons (a : string) (argv : list string) : argc (a :: argv) = argc argv + 1.
Proof. unfold argc; cbn [List.length]; lia. Qed.

Lemma argc_nonneg (argv : list string) : 0 <= argc argv.
Proof. unfold argc; lia. Qed.

(** Resolve the [require] at the head of a branch of [step]. *)
Ltac require_passes :=
  rewrite (bind_ret (require _ _) _ _ _ tt)
    by (apply require_ok; rewrite ?argc_cons;
        match goal with |- context [argc ?l] => pose proof (argc_nonneg l) end; lia).

Ltac run := unfold fb_queue_flash, fb_queue_erase, fb_queue_display, fb_queue_notice,
             fb_queue_command, fb_queue_reboot, fb_queue_download, queue_action,
             bind, ret, modify, die, undefined, skip;
           cbn [skipn firstn negb].

Ltac enter_step := unfold step; rewrite !streq_eqb; cbn [arg nth String.eqb Ascii.eqb Bool.eqb].


Lemma bind_unit_ret (m : M unit) (p : prog) : (m ;; ret tt) p = m p.
Proof. unfold bind, ret. destruct (m p) as [[] ?| | | |]; reflexivity. Qed.

Lemma action_list_set (q : queue) (p : prog) : action_list (set_action_list q p) = q.
Proof. reflexivity. Qed.

Lemma set_action_list_twice (q q' : queue) (p : prog) :
  set_action_list q (set_action_list q' p) = set_action_list q p.
Proof. reflexivity. Qed.

(** ** The package planner *)

Lemma queue_info_dump_run (p : prog) :
  queue_info_dump p = Ret tt (set_action_list (action_list p ++ Table.info_dump) p).
Proof.
  unfold queue_info_dump; run.
  rewrite !action_list_set, !set_action_list_twice, <- !app_assoc. reflexivity.
Qed.

Lemma do_flashall_blocks (os : OS) (fn : string) (p : prog) :
  do_flashall os fn p =
  (queue_info_dump ;;
   match load_file os fn with
   | None => die "failed to load '%s': %s" [fn; sys_strerror os fn]
   | Some (zdata, zsize) =>
       match init_zipfile os zdata zsize with
       | None => undefined
       | Some zip => flash_blocks os zip flash_table
       end
   end) p.
Proof.
  unfold do_flashall. rewrite !(bind_ret _ _ _ _ _ (queue_info_dump_run p)).
  destruct (load_file os fn) as [[zdata zsize]|]; [|reflexivity].
  destruct (init_zipfile os zdata zsize) as [zip|]; [|reflexivity].
  cbn [flash_blocks flash_table].
  unfold bind.
  repeat match goal with
         | |- context [flash_entry ?o ?z ?n ?f ?t ?q] =>
             destruct (flash_entry o z n f t q) as [[] ?| | | |]; try reflexivity
         end.
Qed.

Lemma flash_blocks_app (os : OS) (zip : zipfile) (ex : string -> bytes * Z)
  (pre post : list (string * string * string)) (p : prog) :
  (forall b, In b pre ->
     unzip_file os zip (fst (fst b)) = Unzipped (fst (ex (fst (fst b)))) (snd (ex (fst (fst b))))) ->
  flash_blocks os zip (pre ++ post) p =
  flash_blocks os zip post (set_action_list (action_list p ++ flashes_of ex pre) p).
Proof.
  revert p; induction pre as [|[[name fmt] ptn] pre IH]; intros p H.
  - cbn. rewrite app_nil_r. destruct p; reflexivity.
  - cbn [app flash_blocks]. unfold bind at 1.
    unfold flash_entry at 1.
    pose proof (H (name, fmt, ptn) (or_introl eq_refl)) as Hu; cbn [fst snd] in Hu.
    rewrite Hu. run. rewrite IH by (intros b Hb; apply H; right; exact Hb).
    rewrite action_list_set, set_action_list_twice, <- app_assoc. reflexivity.
Qed.

Lemma unzip_file_missing (os : OS) (zip : zipfile) (name : string) :
  lookup_zipentry zip name = None -> unzip_file os zip name = UnzipNull.
Proof. unfold unzip_file; intros ->; reflexivity. Qed.

Lemma unzip_file_present (os : OS) (zip : zipfile) (name : string) data sz :
  unzip_file os zip name = Unzipped data sz -> lookup_zipentry zip name <> None.
Proof. unfold unzip_file. destruct (lookup_zipentry zip name); [discriminate | discriminate]. Qed.

Lemma flash_table_manifest :
  map (fun b => (fst (fst b), snd b)) flash_table = Table.manifest.
Proof. reflexivity. Qed.

Lemma step_flashall (os : OS) (fn : string) (rest : list string) (p : prog) :
  step os ("flashall" :: fn :: rest) p =
  (do_flashall os fn ;; modify (set_wants_reboot true) ;; ret rest) p.
Proof. enter_step. require_passes. reflexivity. Qed.

Lemma command_loop_step (os : OS) (fuel : nat) (a : string) (argv : list string) (p : prog) :
  command_loop os (S fuel) (a :: argv) p =
  (argv' <- step os (a :: argv) ;; command_loop os fuel argv') p.
Proof. reflexivity. Qed.

(** C3 (amended). When the package loads, opens as an archive and each of
    the five manifest entries is present and unzips, [do_flashall]
    appends the notice, the two displays and the notice, and after them
    exactly five flashes in manifest order. *)
Theorem do_flashall_plan (os : OS) (fn : string) (p : prog)
  (zdata : bytes) (zsize : Z) (zip : zipfile) (ex : string -> bytes * Z) :
  load_file os fn = Some (zdata, zsize) ->
  init_zipfile os zdata zsize = Some zip ->
  (forall name ptn, In (name, ptn) Table.manifest ->
     unzip_file os zip name = Unzipped (fst (ex name)) (snd (ex name))) ->
  do_flashall os fn p =
  Ret tt (set_action_list
            (action_list p ++
             [Notice "--------------------------------------------";
              Display "preos" "Current Pre-OS Version ";
              Display "ifwi" "Current IFWI Version   ";
              Notice "--------------------------------------------";
              Flash "dnx" (fst (ex "dnx.bin")) (snd (ex "dnx.bin"));
              Flash "ifwi" (fst (ex "ifwi.bin")) (snd (ex "ifwi.bin"));
              Flash "boot" (fst (ex "stitch.normalos.bin")) (snd (ex "stitch.normalos.bin"));
              Flash "preos" (fst (ex "stitch.preos.bin")) (snd (ex "stitch.preos.bin"));
              Flash "platform" (fst (ex "platform.img.gz")) (snd (ex "platform.img.gz"))])
            p).
Proof.
  intros Hload Hinit Hex.
  rewrite do_flashall_blocks, (bind_ret _ _ _ _ _ (queue_info_dump_run p)), Hload, Hinit.
  rewrite <- (app_nil_r flash_table), (flash_blocks_app os zip ex).
  - cbn [flash_blocks]. unfold ret. rewrite action_list_set, set_action_list_twice.
    rewrite <- app_assoc. reflexivity.
  - intros [[name fmt] ptn] Hb. cbn [fst snd].
    apply (Hex name ptn). rewrite <- flash_table_manifest.
    apply (in_map (fun b => (fst (fst b), snd b))) in Hb. exact Hb.
Qed.

Lemma do_flashall_plan_witness :
  do_flashall (Sample.system (Sample.only "pkg.zip") Sample.full_zip) "pkg.zip"
    (initial (Sample.system (Sample.only "pkg.zip") Sample.full_zip)) =
  Ret tt (set_action_list
            ([Notice "--------------------------------------------";
              Display "preos" "Current Pre-OS Version ";
              Display "ifwi" "Current IFWI Version   ";
              Notice "--------------------------------------------";
              Flash "dnx" [x00; x01; x02; x03] 4;
              Flash "ifwi" [x00; x01; x02; x03] 4;
              Flash "boot" [x00; x01; x02; x03] 4;
              Flash "preos" [x00; x01; x02; x03] 4;
              Flash "platform" [x00; x01; x02; x03] 4])
            (initial (Sample.system (Sample.only "pkg.zip") Sample.full_zip))).
Proof.
  refine (do_flashall_plan (Sample.system (Sample.only "pkg.zip") Sample.full_zip)
            "pkg.zip" _ [] 0 Sample.full_zip Sample.contents _ _ _).
  - reflexivity.
  - reflexivity.
  - intros name ptn Hin. cbn in Hin.
    repeat (destruct Hin as [Hin|Hin]; [injection Hin as <- <-; vm_compute; reflexivity|]).
    destruct Hin.
Defined.

(** C3, as stated, fails: an archive that contains all five manifest
    entries, the first of which does not decompress, gets the two
    displays but not a single flash. *)
Lemma do_flashall_damaged_entry :
  (forall name ptn, In (name, ptn) Table.manifest ->
     lookup_zipentry Sample.damaged_zip name <> None) /\
  do_flashall (Sample.system (Sample.only "pkg.zip") Sample.damaged_zip) "pkg.zip"
    (initial (Sample.system (Sample.only "pkg.zip") Sample.damaged_zip)) =
  Die "package missing %s" ["dnx.bin"]
    (set_action_list Table.info_dump
       (initial (Sample.system (Sample.only "pkg.zip") Sample.damaged_zip))).
Proof.
  split.
  - intros name ptn Hin. cbn in Hin.
    repeat (destruct Hin as [Hin|Hin]; [injection Hin as <- <-; vm_compute; discriminate|]).
    destruct Hin.
  - vm_compute. reflexivity.
Qed.

Lemma format_package_missing (name : string) :
  format "package missing %s" [name] = ("package missing " ++ name ++ "")%string.
Proof. reflexivity. Qed.

Lemma format_package_missing_nl (name : string) :
  format ("package missing %s" ++ newline) [name] =
  ("package missing " ++ name ++ newline)%string.
Proof. reflexivity. Qed.

(** The splits of the block table around one of its blocks. *)
Lemma flash_table_split (pre post : list (string * string * string))
  (name fmt ptn : string) :
  flash_table = pre ++ (name, fmt, ptn) :: post ->
  exists tail : string, format fmt [name] = ("package missing " ++ name ++ tail)%string.
Proof.
  unfold flash_table. intros H.
  do 5 (destruct pre as [|? pre];
        [ injection H as _ <- <- _;
          first [ exists ""%string; reflexivity | exists newline; reflexivity ]
        | injection H as _ H ]).
  destruct pre; discriminate.
Qed.

(** C4 (amended). When the package loads and opens, the manifest entries
    before [name] unzip and [name] itself is missing from the archive,
    [do_flashall] dies with a message naming [name]; the queue then holds
    the informational operations and the flashes of the earlier entries,
    nothing for [name] or a later entry; and [main] ends in that fatal
    exit, so the queue is not executed. *)
Theorem do_flashall_missing (os : OS) (fn : string) (p : prog)
  (zdata : bytes) (zsize : Z) (zip : zipfile) (ex : string -> bytes * Z)
  (pre post : list (string * string * string)) (name fmt ptn : string) :
  load_file os fn = Some (zdata, zsize) ->
  init_zipfile os zdata zsize = Some zip ->
  flash_table = pre ++ (name, fmt, ptn) :: post ->
  (forall b, In b pre ->
     unzip_file os zip (fst (fst b)) =
     Unzipped (fst (ex (fst (fst b)))) (snd (ex (fst (fst b))))) ->
  lookup_zipentry zip name = None ->
  let stopped q := set_action_list (action_list q ++ Table.info_dump ++ flashes_of ex pre) q in
  do_flashall os fn p = Die fmt [name] (stopped p) /\
  (exists tail : string, format fmt [name] = ("package missing " ++ name ++ tail)%string) /\
  (forall fuel rest,
      (command_loop os (S fuel) ("flashall" :: fn :: rest) ;; queue_reboot) p =
      Die fmt [name] (stopped p)) /\
  (forall a0 rest,
      main os (a0 :: "flashall" :: fn :: rest) = ExitDie fmt [name] (stopped (initial os))).
Proof.
  intros Hload Hinit Htab Hpre Hmiss stopped.
  assert (Hdie : forall q, do_flashall os fn q = Die fmt [name] (stopped q)).
  { intros q.
    rewrite do_flashall_blocks, (bind_ret _ _ _ _ _ (queue_info_dump_run q)), Hload, Hinit.
    rewrite Htab, (flash_blocks_app os zip ex) by exact Hpre.
    cbn [flash_blocks]. unfold bind, flash_entry.
    rewrite (unzip_file_missing os zip name Hmiss). unfold die, stopped.
    rewrite action_list_set, set_action_list_twice, <- app_assoc. reflexivity. }
  assert (Hloop : forall fuel rest q,
             (command_loop os (S fuel) ("flashall" :: fn :: rest) ;; queue_reboot) q =
             Die fmt [name] (stopped q)).
  { intros fuel rest q. apply bind_die. rewrite command_loop_step.
    apply bind_die. rewrite step_flashall. apply bind_die, Hdie. }
  repeat split.
  - apply Hdie.
  - exact (flash_table_split pre post name fmt ptn Htab).
  - intros fuel rest; apply Hloop.
  - intros a0 rest. unfold main. rewrite !streq_eqb. cbn [String.eqb Ascii.eqb Bool.eqb].
    cbn [List.length]. rewrite Hloop. reflexivity.
Qed.

Lemma do_flashall_missing_witness :
  do_flashall (Sample.system (Sample.only "pkg.zip") Sample.partial_zip) "pkg.zip"
    (initial (Sample.system (Sample.only "pkg.zip") Sample.partial_zip)) =
  Die "package missing %s" ["ifwi.bin"]
    (set_action_list
       (Table.info_dump ++ [Flash "dnx" [x00; x01; x02; x03] 4])
       (initial (Sample.system (Sample.only "pkg.zip") Sample.partial_zip))).
Proof.
  refine (proj1 (do_flashall_missing
                   (Sample.system (Sample.only "pkg.zip") Sample.partial_zip)
                   "pkg.zip" _ [] 0 Sample.partial_zip Sample.contents
                   [(FW_DNX_BIN, "package missing %s", "dnx")]
                   [(NORMALOS_BIN, "package missing %s", "boot");
                    (PREOS_BIN, ("package missing %s" ++ newline)%string, "preos");
                    (PLATFORM_IMG, ("package missing %s" ++ newline)%string, "platform")]
                   "ifwi.bin" "package missing %s" "ifwi" _ _ _ _ _)).
  - reflexivity.
  - reflexivity.
  - reflexivity.
  - intros b [<-|[]]. vm_compute. reflexivity.
  - vm_compute. reflexivity.
Defined.

(** C4, as stated, fails: in an archive whose first missing entry is
    [ifwi.bin] but whose [dnx.bin] does not decompress, the fatal error
    comes one entry earlier and names [dnx.bin], which the archive
    contains. *)
Lemma do_flashall_dies_before_missing :
  lookup_zipentry Sample.damaged_partial_zip "dnx.bin" <> None /\
  lookup_zipentry Sample.damaged_partial_zip "ifwi.bin" = None /\
  do_flashall (Sample.system (Sample.only "pkg.zip") Sample.damaged_partial_zip) "pkg.zip"
    (initial (Sample.system (Sample.only "pkg.zip") Sample.damaged_partial_zip)) =
  Die "package missing %s" ["dnx.bin"]
    (set_action_list Table.info_dump
       (initial (Sample.system (Sample.only "pkg.zip") Sample.damaged_partial_zip))).
Proof.
  split; [vm_compute; discriminate | split; vm_compute; reflexivity].
Qed.

(** ** One iteration of the command loop, command by command *)

Lemma land_high_bits (v : Z) :
  0 <= v -> (Z.land v (Z.lnot 0xffff) =? 0) = (v <=? 65535).
Proof.
  intros Hv. replace (Z.lnot 0xffff) with (Z.lnot (Z.ones 16)) by reflexivity.
  rewrite <- Z.ldiff_land, Z.ldiff_ones_r, Z.shiftl_mul_pow2, Z.shiftr_div_pow2 by lia.
  change (2 ^ 16) with 65536.
  destruct (Z.leb_spec v 65535) as [H|H].
  - rewrite Z.div_small by lia. reflexivity.
  - apply Z.eqb_neq. assert (1 <= v / 65536) by (apply Z.div_le_lower_bound; lia). lia.
Qed.

Lemma digit_in_range (base : Z) (c : ascii) (d : Z) :
  digit_in base c = Some d -> 0 <= d < base.
Proof.
  unfold digit_in, digit_of.
  destruct ((48 <=? code c) && (code c <=? 57)) eqn:E1;
    [| destruct ((97 <=? code c) && (code c <=? 122)) eqn:E2;
       [| destruct ((65 <=? code c) && (code c <=? 90)) eqn:E3; [|discriminate] ] ].
  all: match goal with |- context [?x <? ?b] => destruct (Z.ltb_spec x b) end;
    intros [= <-]; lia.
Qed.

Lemma scan_digits_nonneg (base : Z) (s : string) (acc : Z) (seen : bool) :
  0 <= acc -> 0 <= fst (fst (scan_digits base acc seen s)).
Proof.
  revert acc seen; induction s as [|c s IH]; intros acc seen Hacc; cbn; [exact Hacc|].
  destruct (digit_in base c) as [d|] eqn:E; [|exact Hacc].
  apply digit_in_range in E. apply IH. nia.
Qed.

Lemma strtoul_range (s : string) : 0 <= fst (strtoul s) <= ULONG_MAX.
Proof.
  unfold strtoul.
  match goal with |- context [let '(n, s2) := ?e in _] => destruct e as [neg s2] end.
  match goal with |- context [let '(b, s3) := ?e in _] => destruct e as [base s3] end.
  pose proof (scan_digits_nonneg base s3 0 false (Z.le_refl 0)) as Hs.
  destruct (scan_digits base 0 false s3) as [[acc seen] rest]. cbn [fst] in Hs.
  destruct seen; cbn [negb fst]; [|unfold ULONG_MAX; lia].
  destruct (Z.ltb_spec ULONG_MAX acc); cbn [fst]; [unfold ULONG_MAX; lia|].
  destruct neg; cbn [fst]; [|lia].
  pose proof (Z.mod_pos_bound (- acc) (ULONG_MAX + 1)). unfold ULONG_MAX in *. lia.
Qed.

Lemma vendor_check (s : string) :
  (negb (streq (snd (strtoul s)) "") ||
   negb (Z.land (fst (strtoul s)) (Z.lnot 0xffff) =? 0)) =
  negb (strtoul_ok s).
Proof.
  unfold strtoul_ok. pose proof (strtoul_range s) as H.
  destruct (strtoul s) as [val rest]. cbn [fst snd] in *.
  rewrite streq_eqb, land_high_bits by lia.
  rewrite negb_andb. reflexivity.
Qed.

Lemma step_serial (os : OS) (a : string) (rest : list string) (p : prog) :
  step os ("-s" :: a :: rest) p = Ret rest (set_serial (Some a) p).
Proof. enter_step. require_passes. reflexivity. Qed.

Lemma step_vendor (os : OS) (a : string) (rest : list string) (p : prog) :
  step os ("-i" :: a :: rest) p =
  if strtoul_ok a
  then Ret rest (set_vendor_id (fst (strtoul a) mod 65536) p)
  else Die "invalid vendor id '%s'" [a] p.
Proof.
  enter_step. require_passes.
  pose proof (vendor_check a) as H. destruct (strtoul a) as [val endptr].
  cbn [fst snd] in H. rewrite H.
  destruct (strtoul_ok a); reflexivity.
Qed.

Lemma step_getvar (os : OS) (a : string) (rest : list string) (p : prog) :
  step os ("getvar" :: a :: rest) p =
  Ret rest (set_action_list (action_list p ++ [Display a a]) p).
Proof. enter_step. require_passes. reflexivity. Qed.

Lemma step_erase (os : OS) (a : string) (rest : list string) (p : prog) :
  step os ("erase" :: a :: rest) p =
  Ret rest (set_action_list (action_list p ++ [Erase a]) p).
Proof. enter_step. require_passes. reflexivity. Qed.

Lemma step_signature (os : OS) (a : string) (rest : list string) (p : prog) :
  step os ("signature" :: a :: rest) p =
  match load_file os a with
  | None => Die "could not load '%s': %s" [a; sys_strerror os a] p
  | Some (data, sz) =>
      if sz =? 256
      then Ret rest (set_action_list
                       (action_list p ++
                        [Download "signature" data sz;
                         Command "signature" "installing signature"]) p)
      else Die "signature must be 256 bytes" [] p
  end.
Proof.
  enter_step. require_passes.
  destruct (load_file os a) as [[data sz]|]; [|reflexivity].
  destruct (sz =? 256); [|reflexivity].
  run. rewrite action_list_set, set_action_list_twice, <- app_assoc. reflexivity.
Qed.

Lemma step_reboot (os : OS) (rest : list string) (p : prog) :
  step os ("reboot" :: rest) p = Ret rest (set_wants_reboot true p).
Proof. enter_step. reflexivity. Qed.

Lemma step_reboot_bootloader (os : OS) (rest : list string) (p : prog) :
  step os ("reboot-bootloader" :: rest) p = Ret rest (set_wants_reboot_bootloader true p).
Proof. enter_step. reflexivity. Qed.

Lemma step_continue (os : OS) (rest : list string) (p : prog) :
  step os ("continue" :: rest) p =
  Ret rest (set_action_list (action_list p ++ [Command "continue" "resuming boot"]) p).
Proof. enter_step. reflexivity. Qed.

Lemma step_flash (os : OS) (a b : string) (rest : list string) (p : prog) :
  step os ("flash" :: a :: b :: rest) p =
  match load_file os b with
  | None => Die ("cannot load '%s': %s" ++ newline)%string [b; sys_strerror os b] p
  | Some (data, sz) => Ret rest (set_action_list (action_list p ++ [Flash a data sz]) p)
  end.
Proof.
  enter_step. require_passes.
  destruct (load_file os b) as [[data sz]|]; reflexivity.
Qed.

(** Too few arguments after a command that needs them: usage, exit 1. *)
Lemma step_short (os : OS) (t : string) (rest : list string) (p : prog) :
  (In t ["-s"; "-i"; "getvar"; "erase"; "signature"; "flashall"] /\ rest = []) \/
  (t = "flash" /\ (rest = [] \/ exists a, rest = [a])) ->
  step os (t :: rest) p = Usage 1.
Proof.
  intros [[Ht ->]|[-> Hr]].
  - cbn in Ht. decompose [or] Ht; subst; try contradiction;
      enter_step; (rewrite (bind_usage (require _ _) _ _ 1); [reflexivity|]);
      apply require_fail; cbn; lia.
  - enter_step. rewrite (bind_usage (require _ _) _ _ 1); [reflexivity|].
    apply require_fail. destruct Hr as [->|[a ->]]; cbn; lia.
Qed.

(** A leading token that is not a command of the loop: usage, exit 1. *)
Lemma step_other (os : OS) (t : string) (rest : list string) (p : prog) :
  ~ In t ["-s"; "-i"; "getvar"; "erase"; "signature"; "reboot"; "reboot-bootloader";
          "continue"; "flash"; "flashall"; "oem"] ->
  step os (t :: rest) p = Usage 1.
Proof.
  intros Hn. unfold step. rewrite !streq_eqb. cbn [arg nth].
  repeat match goal with
         | |- context [String.eqb t ?k] =>
             destruct (String.eqb_spec t k) as [E|_];
             [exfalso; apply Hn; rewrite E; cbn; tauto|]
         end.
  reflexivity.
Qed.

(** ** The oem command *)

Lemma strlen_append (a b : string) : strlen (a ++ b) = strlen a + strlen b.
Proof.
  unfold strlen. induction a as [|c a IH]; cbn [String.append String.length]; lia.
Qed.

Lemma append_assoc (a b c : string) : ((a ++ b) ++ c = a ++ (b ++ c))%string.
Proof. induction a as [|x a IH]; cbn; [reflexivity | rewrite IH; reflexivity]. Qed.

Lemma strlen_nonneg (a : string) : 0 <= strlen a.
Proof. unfold strlen; lia. Qed.

Lemma oem_strcat_concat (argv : list string) (command : string) :
  argv <> [] ->
  oem_strcat command argv =
  if strlen command + strlen (String.concat " " argv) + 1 <=? 256
  then Some (command ++ String.concat " " argv)%string
  else None.
Proof.
  revert command; induction argv as [|a rest IH]; intros command Hne; [contradiction|].
  cbn [oem_strcat]. unfold strcat.
  destruct rest as [|b rest'].
  - cbn [String.concat]. destruct (strlen command + strlen a + 1 <=? 256); reflexivity.
  - set (tail := String.concat " " (b :: rest')) in *.
    assert (Ec : String.concat " " (a :: b :: rest') = (a ++ " " ++ tail)%string) by reflexivity.
    rewrite Ec, !strlen_append.
    pose proof (strlen_nonneg tail) as Ht. pose proof (strlen_nonneg a) as Ha.
    pose proof (strlen_nonneg command) as Hc.
    change (strlen " ") with 1.
    destruct (Z.leb_spec (strlen command + strlen a + 1) 256) as [H1|H1].
    + rewrite strlen_append.
      destruct (Z.leb_spec (strlen command + strlen a + 1 + 1) 256) as [H2|H2].
      * rewrite IH by discriminate. rewrite !strlen_append. change (strlen " ") with 1.
        destruct (Z.leb_spec (strlen command + strlen a + 1 + strlen tail + 1) 256);
          destruct (Z.leb_spec (strlen command + (strlen a + (1 + strlen tail)) + 1) 256);
          try lia; [|reflexivity].
        rewrite !append_assoc. reflexivity.
      * destruct (Z.leb_spec (strlen command + (strlen a + (1 + strlen tail)) + 1) 256);
          [lia | reflexivity].
    + destruct (Z.leb_spec (strlen command + (strlen a + (1 + strlen tail)) + 1) 256);
        [lia | reflexivity].
Qed.

Lemma step_oem_alone_run (os : OS) (p : prog) : step os ["oem"] p = Ret [] p.
Proof. reflexivity. Qed.

Lemma step_oem (os : OS) (w : string) (ws : list string) (p : prog) :
  step os ("oem" :: w :: ws) p =
  if strlen (String.concat " " ("oem" :: w :: ws)) <=? 255
  then Ret [] (set_action_list
                 (action_list p ++ [Command (String.concat " " ("oem" :: w :: ws)) ""]) p)
  else Undef.
Proof.
  enter_step. unfold do_oem_command.
  destruct (Z.leb_spec (argc ("oem" :: w :: ws)) 1) as [H|_].
  { rewrite !argc_cons in H. pose proof (argc_nonneg ws). lia. }
  rewrite oem_strcat_concat by discriminate.
  change (strlen "") with 0.
  destruct (Z.leb_spec (strlen (String.concat " " ("oem" :: w :: ws))) 255);
    destruct (Z.leb_spec (0 + strlen (String.concat " " ("oem" :: w :: ws)) + 1) 256);
    try lia; reflexivity.
Qed.

(** ** The planner against the plan of the specification *)

Lemma flash_blocks_sim (os : OS) (zip : zipfile) (bs : list (string * string * string))
  (p : prog) :
  match Table.plan_flashes os zip (map (fun b => (fst (fst b), snd b)) bs) with
  | Some ops => flash_blocks os zip bs p = Ret tt (set_action_list (action_list p ++ ops) p)
  | None => fatal (flash_blocks os zip bs p)
  end.
Proof.
  revert p; induction bs as [|[[name fmt] ptn] bs IH]; intros p.
  - cbn. rewrite app_nil_r. destruct p; reflexivity.
  - cbn [map fst snd Table.plan_flashes flash_blocks].
    unfold Table.extract_entry, bind, flash_entry.
    destruct (unzip_file os zip name) as [data sz| |]; cbn; [|exact I|exact I].
    specialize (IH (set_action_list (action_list p ++ [Flash ptn data sz]) p)).
    destruct (Table.plan_flashes os zip (map (fun b => (fst (fst b), snd b)) bs)) as [ops|].
    + cbn [option_map]. rewrite IH, action_list_set, set_action_list_twice, <- app_assoc.
      reflexivity.
    + exact IH.
Qed.

Lemma do_flashall_sim (os : OS) (fn : string) (p : prog) :
  match run_package os fn with
  | Some ops => do_flashall os fn p = Ret tt (set_action_list (action_list p ++ ops) p)
  | None => fatal (do_flashall os fn p)
  end.
Proof.
  rewrite do_flashall_blocks, (bind_ret _ _ _ _ _ (queue_info_dump_run p)).
  unfold run_package.
  destruct (load_file os fn) as [[zdata zsize]|]; [|exact I].
  destruct (init_zipfile os zdata zsize) as [zip|]; [|exact I].
  rewrite <- flash_table_manifest.
  pose proof (flash_blocks_sim os zip flash_table
                (set_action_list (action_list p ++ Table.info_dump) p)) as H.
  destruct (Table.plan_flashes os zip (map (fun b => (fst (fst b), snd b)) flash_table))
    as [ops|]; cbn [option_map].
  - rewrite H, action_list_set, set_action_list_twice, <- app_assoc. reflexivity.
  - exact H.
Qed.

(** ** One iteration against the table *)

Ltac after_eq :=
  unfold after, set_serial, set_vendor_id, set_action_list, set_wants_reboot,
    set_wants_reboot_bootloader;
  cbn [Table.sets_reboot Table.sets_reboot_bootloader serial vendor_id action_list
       wants_reboot wants_reboot_bootloader];
  rewrite ?app_nil_r, ?orb_false_r, ?orb_true_r; reflexivity.

Ltac too_short :=
  rewrite step_short by (cbn; intuition (eauto; congruence));
  apply step_unrecognised; reflexivity.

Lemma step_sim (os : OS) (argv : list string) (p : prog) :
  argv <> [] -> step_spec os argv p (step os argv p).
Proof.
  destruct argv as [|t rest]; [contradiction | intros _].
  destruct (String.eqb_spec t "-s") as [->|N1].
  { destruct rest as [|a rest]; [too_short|].
    rewrite step_serial.
    replace (set_serial (Some a) p) with (after (Table.OptSerial a) [] p) by after_eq.
    apply step_done; [reflexivity | reflexivity | exact I]. }
  destruct (String.eqb_spec t "-i") as [->|N2].
  { destruct rest as [|a rest]; [too_short|].
    rewrite step_vendor. destruct (strtoul_ok a) eqn:E.
    - replace (set_vendor_id _ p) with (after (Table.OptVendor a) [] p) by after_eq.
      apply step_done; [reflexivity | cbn; rewrite E; reflexivity | exact I].
    - apply (step_fatal os _ p (Table.OptVendor a) rest);
        [reflexivity | cbn; rewrite E; reflexivity | exact I]. }
  destruct (String.eqb_spec t "getvar") as [->|N3].
  { destruct rest as [|a rest]; [too_short|].
    rewrite step_getvar.
    replace (set_action_list _ p) with (after (Table.Getvar a) [Display a a] p) by after_eq.
    apply step_done; [reflexivity | reflexivity | exact I]. }
  destruct (String.eqb_spec t "erase") as [->|N4].
  { destruct rest as [|a rest]; [too_short|].
    rewrite step_erase.
    replace (set_action_list _ p) with (after (Table.EraseCmd a) [Erase a] p) by after_eq.
    apply step_done; [reflexivity | reflexivity | exact I]. }
  destruct (String.eqb_spec t "signature") as [->|N5].
  { destruct rest as [|a rest]; [too_short|].
    rewrite step_signature.
    destruct (load_file os a) as [[data sz]|] eqn:El.
    - destruct (sz =? 256) eqn:Es.
      + replace (set_action_list _ p)
          with (after (Table.Signature a)
                  [Download "signature" data sz;
                   Command "signature" "installing signature"] p) by after_eq.
        apply step_done; [reflexivity | cbn; rewrite El, Es; reflexivity | exact I].
      + apply (step_fatal os _ p (Table.Signature a) rest);
          [reflexivity | cbn; rewrite El, Es; reflexivity | exact I].
    - apply (step_fatal os _ p (Table.Signature a) rest);
        [reflexivity | cbn; rewrite El; reflexivity | exact I]. }
  destruct (String.eqb_spec t "reboot") as [->|N6].
  { rewrite step_reboot.
    replace (set_wants_reboot true p) with (after Table.RebootCmd [] p) by after_eq.
    apply step_done; [reflexivity | reflexivity | exact I]. }
  destruct (String.eqb_spec t "reboot-bootloader") as [->|N7].
  { rewrite step_reboot_bootloader.
    replace (set_wants_reboot_bootloader true p)
      with (after Table.RebootBootloader [] p) by after_eq.
    apply step_done; [reflexivity | reflexivity | exact I]. }
  destruct (String.eqb_spec t "continue") as [->|N8].
  { rewrite step_continue.
    replace (set_action_list _ p)
      with (after Table.Continue [Command "continue" "resuming boot"] p) by after_eq.
    apply step_done; [reflexivity | reflexivity | exact I]. }
  destruct (String.eqb_spec t "flash") as [->|N9].
  { destruct rest as [|a [|b rest]]; [too_short | too_short |].
    rewrite step_flash.
    destruct (load_file os b) as [[data sz]|] eqn:El.
    - replace (set_action_list _ p)
        with (after (Table.FlashCmd a b) [Flash a data sz] p) by after_eq.
      apply step_done; [reflexivity | cbn; rewrite El; reflexivity | exact I].
    - apply (step_fatal os _ p (Table.FlashCmd a b) rest);
        [reflexivity | cbn; rewrite El; reflexivity | exact I]. }
  destruct (String.eqb_spec t "flashall") as [->|N10].
  { destruct rest as [|a rest]; [too_short|].
    rewrite step_flashall. pose proof (do_flashall_sim os a p) as H.
    destruct (run_package os a) as [ops|] eqn:Ep.
    - rewrite (bind_ret _ _ _ _ _ H). run.
      replace (set_wants_reboot true _) with (after (Table.Flashall a) ops p) by after_eq.
      apply step_done; [reflexivity | exact Ep | exact I].
    - apply (step_fatal os _ p (Table.Flashall a) rest); [reflexivity | exact Ep |].
      unfold bind. destruct (do_flashall os a p); try contradiction; exact I. }
  destruct (String.eqb_spec t "oem") as [->|N11].
  { destruct rest as [|w ws].
    - rewrite step_oem_alone_run. apply step_oem_alone. reflexivity.
    - rewrite step_oem.
      destruct (Z.leb_spec (strlen (String.concat " " ("oem" :: w :: ws))) 255) as [H|H].
      + replace (set_action_list _ p)
          with (after (Table.Oem (w :: ws))
                  [Command (String.concat " " ("oem" :: w :: ws)) ""] p) by after_eq.
        apply step_done; [reflexivity | reflexivity | split; [discriminate | exact H]].
      + apply (step_oem_overflow os _ p (w :: ws)); [reflexivity | discriminate | exact H]. }
  rewrite step_other by (cbn; intuition congruence).
  apply step_unrecognised. unfold Table.parse_head.
  repeat match goal with
         | |- context [String.eqb t ?k] =>
             destruct (String.eqb_spec t k) as [E|_]; [congruence|]
         end.
  reflexivity.
Qed.

(** ** The command loop *)

Lemma parse_head_shorter (toks rest : list string) (c : Table.cmd) :
  Table.parse_head toks = Some (c, rest) -> (List.length rest < List.length toks)%nat.
Proof.
  destruct toks as [|t r]; [discriminate|]. unfold Table.parse_head.
  repeat match goal with
         | |- context [String.eqb t ?k] => destruct (String.eqb t k); cbv iota
         end;
    repeat match goal with
           | |- context [match ?l with [] => _ | _ :: _ => _ end] => destruct l; cbv iota
           end;
    try discriminate;
    intros H; inversion H; subst; cbn [List.length]; lia.
Qed.


Lemma step_ret_inv (os : OS) (argv rest : list string) (p p' : prog) :
  argv <> [] ->
  step os argv p = Ret rest p' ->
  exists c, Table.parse_head argv = Some (c, rest) /\
            ((exists ops, run_effect os c = Some ops /\ Table.oem_ok c /\
                          p' = after c ops p) \/
             (c = Table.Oem [] /\ p' = p)).
Proof.
  intros Hne E. pose proof (step_sim os argv p Hne) as H. rewrite E in H.
  inversion H as [ | c r ops Hh He Ho | c r r' Hh He Hf | Hh | ws Hh Hw Hl ]; subst.
  - exists c. split; [exact Hh|]. left. exists ops. auto.
  - contradiction.
  - exists (Table.Oem []). split; [exact Hh|]. right. auto.
Qed.

Lemma step_not_out_of_fuel (os : OS) (argv : list string) (p : prog) :
  argv <> [] -> step os argv p <> OutOfFuel.
Proof.
  intros Hne E. pose proof (step_sim os argv p Hne) as H. rewrite E in H.
  inversion H; subst; contradiction.
Qed.

(** The loop always ends: the arguments left get shorter with every
    iteration, so fuel for the number of arguments is enough. *)
Lemma command_loop_total (os : OS) (fuel : nat) (argv : list string) (p : prog) :
  (List.length argv <= fuel)%nat -> command_loop os fuel argv p <> OutOfFuel.
Proof.
  revert argv p; induction fuel as [|fuel IH]; intros argv p Hlen.
  - destruct argv; [discriminate | cbn in Hlen; lia].
  - destruct argv as [|a argv]; [discriminate|].
    assert (Hne : a :: argv <> []) by discriminate.
    rewrite command_loop_step. unfold bind.
    destruct (step os (a :: argv) p) as [rest p'| | | |] eqn:E; try discriminate.
    + apply IH. destruct (step_ret_inv os _ _ _ _ Hne E) as (c & Hh & _).
      apply parse_head_shorter in Hh. cbn [List.length] in *. lia.
    + exfalso. exact (step_not_out_of_fuel os _ _ Hne E).
Qed.

Lemma parse_fuel_enough (fuel : nat) (toks : list string) :
  (List.length toks <= fuel)%nat -> Table.parse_fuel fuel toks = Table.parse toks.
Proof.
  unfold Table.parse.
  remember (List.length toks) as n eqn:En. revert fuel toks En.
  induction n as [n IH] using lt_wf_ind. intros fuel toks En Hlen.
  destruct toks as [|t rest]; [destruct fuel, n; reflexivity|].
  cbn [List.length] in En. destruct fuel as [|fuel]; [lia|]. destruct n as [|n]; [lia|].
  cbn [Table.parse_fuel].
  destruct (Table.parse_head (t :: rest)) as [[c rest']|] eqn:Eh; [|reflexivity].
  pose proof (parse_head_shorter _ _ _ Eh) as Hs. cbn [List.length] in Hs.
  rewrite (IH (List.length rest') ltac:(lia) fuel rest' eq_refl ltac:(lia)).
  rewrite (IH (List.length rest') ltac:(lia) n rest' eq_refl ltac:(lia)).
  reflexivity.
Qed.

Lemma parse_cons (t : string) (rest : list string) :
  Table.parse (t :: rest) =
  match Table.parse_head (t :: rest) with
  | Some (c, rest') => option_map (cons c) (Table.parse rest')
  | None => None
  end.
Proof.
  unfold Table.parse at 1. cbn [List.length Table.parse_fuel].
  destruct (Table.parse_head (t :: rest)) as [[c rest']|] eqn:Eh; [|reflexivity].
  rewrite parse_fuel_enough; [reflexivity|].
  apply parse_head_shorter in Eh. cbn [List.length] in Eh. lia.
Qed.


Lemma queue_reboot_run (os : OS) (p : prog) :
  exists p', queue_reboot p = Ret tt p' /\
             action_list p' =
             action_list p ++ Table.trailing (wants_reboot p) (wants_reboot_bootloader p) /\
             wants_reboot p' = wants_reboot p /\
             wants_reboot_bootloader p' = wants_reboot_bootloader p /\
             serial p' = serial p /\ vendor_id p' = vendor_id p.
Proof.
  unfold queue_reboot, Table.trailing.
  destruct (wants_reboot p) eqn:Er; [|destruct (wants_reboot_bootloader p) eqn:Eb].
  - eexists; split; [reflexivity|]. cbn. repeat split; auto.
  - eexists; split; [reflexivity|]. cbn. repeat split; auto.
  - exists p. rewrite app_nil_r. repeat split; auto.
Qed.

(** [main] always ends: it never runs out of fuel in the loop. *)
Lemma main_terminates (os : OS) (argv : list string) : main os argv <> Diverges.
Proof.
  unfold main. destruct argv as [|a0 [|t rest]]; try discriminate.
  destruct (streq t "devices"); [discriminate|].
  destruct (streq t "help"); [discriminate|].
  pose proof (command_loop_total os (List.length (t :: rest)) (t :: rest) (initial os)
                (le_n _)) as Ht.
  unfold bind.
  destruct (command_loop os (List.length (t :: rest)) (t :: rest) (initial os))
    as [[] q| | | |]; try discriminate; [|contradiction].
  destruct (queue_reboot_run os q) as (q' & -> & _). discriminate.
Qed.

(** ** The deferred reboot *)

Lemma plan_flashes_no_reboot (os : OS) (zip : zipfile) (m : list (string * string))
  (ops : list action) :
  Table.plan_flashes os zip m = Some ops ->
  forallb (fun a => negb (Table.is_reboot_op a)) ops = true.
Proof.
  revert ops; induction m as [|[name ptn] m IH]; intros ops; cbn.
  - intros [= <-]. reflexivity.
  - destruct (Table.extract_entry os zip name) as [[data sz]|]; [|discriminate].
    destruct (Table.plan_flashes os zip m) as [ops'|]; [|discriminate].
    intros [= <-]. cbn. apply IH. reflexivity.
Qed.

Lemma effect_no_reboot (os : OS) (c : Table.cmd) (ops : list action) :
  run_effect os c = Some ops ->
  forallb (fun a => negb (Table.is_reboot_op a)) ops = true.
Proof.
  destruct c; cbn [run_effect Table.effect].
  1, 3, 4, 6, 7, 8: intros [= <-]; reflexivity.
  - destruct (strtoul_ok v); intros [= <-]; reflexivity.
  - destruct (load_file os file) as [[data sz]|]; [|discriminate].
    destruct (sz =? 256); intros [= <-]; reflexivity.
  - destruct (load_file os file) as [[data sz]|]; intros [= <-]; reflexivity.
  - unfold run_package.
    destruct (load_file os package) as [[zdata zsize]|]; [|discriminate].
    destruct (init_zipfile os zdata zsize) as [zip|]; [|discriminate].
    destruct (Table.plan_flashes os zip Table.manifest) as [fl|] eqn:E; [|discriminate].
    intros [= <-]. cbn. exact (plan_flashes_no_reboot os zip _ _ E).
  - intros [= <-]. destruct words; reflexivity.
Qed.

Lemma loop_ret_inv (os : OS) (fuel : nat) (toks : list string) (p p' : prog) :
  command_loop os fuel toks p = Ret tt p' ->
  exists cmds body,
    Table.parse toks = Some cmds /\
    action_list p' = action_list p ++ body /\
    forallb (fun a => negb (Table.is_reboot_op a)) body = true /\
    wants_reboot p' = wants_reboot p || existsb Table.sets_reboot cmds /\
    wants_reboot_bootloader p' =
    wants_reboot_bootloader p || existsb Table.sets_reboot_bootloader cmds.
Proof.
  revert toks p; induction fuel as [|fuel IH]; intros toks p Hrun.
  - destruct toks; [|discriminate]. injection Hrun as <-.
    exists [], []. rewrite app_nil_r, !orb_false_r. auto.
  - destruct toks as [|t rest].
    { injection Hrun as <-. exists [], []. rewrite app_nil_r, !orb_false_r. auto. }
    assert (Hne : t :: rest <> []) by discriminate.
    rewrite command_loop_step in Hrun. unfold bind in Hrun.
    destruct (step os (t :: rest) p) as [rest' p1| | | |] eqn:E; try discriminate.
    destruct (step_ret_inv os _ _ _ _ Hne E) as (c & Hh & Hc).
    destruct (IH rest' p1 Hrun) as (cs & body & Hp & Hq & Hn & Hr & Hb).
    assert (Hparse : Table.parse (t :: rest) = Some (c :: cs)).
    { rewrite parse_cons, Hh, Hp. reflexivity. }
    destruct Hc as [(ops & He & _ & ->)|[-> ->]].
    + exists (c :: cs), (ops ++ body). split; [exact Hparse|].
      rewrite Hq, Hr, Hb. cbn [after action_list wants_reboot wants_reboot_bootloader existsb].
      rewrite <- app_assoc, <- !orb_assoc, forallb_app, Hn, (effect_no_reboot os c ops He).
      auto.
    + exists (Table.Oem [] :: cs), body. split; [exact Hparse|].
      rewrite Hq, Hr, Hb. cbn [existsb Table.sets_reboot Table.sets_reboot_bootloader orb].
      auto.
Qed.

Lemma main_run_inv (os : OS) (argv : list string) (p : prog) :
  main os argv = RunQueue p ->
  exists a0 toks,
    argv = a0 :: toks /\
    (command_loop os (List.length toks) toks ;; queue_reboot) (initial os) = Ret tt p.
Proof.
  unfold main. destruct argv as [|a0 toks]; [discriminate|].
  destruct toks as [|t rest]; [discriminate|].
  destruct (streq t "devices"); [discriminate|].
  destruct (streq t "help"); [discriminate|].
  destruct ((command_loop os (List.length (t :: rest)) (t :: rest) ;; queue_reboot) (initial os))
    as [[] q| | | |] eqn:E; try discriminate.
  intros [= ->]. exists a0, (t :: rest). auto.
Qed.

(** C5. When [main] gets to run the queue, the queue is what the loop
    appended, which holds no reboot operation, followed by one Reboot if
    a [reboot] or [flashall] command was given, otherwise by one
    Command "reboot-bootloader" if a [reboot-bootloader] command was
    given, otherwise by nothing. *)
Theorem reboot_resolved_once (os : OS) (argv : list string) (p : prog) :
  main os argv = RunQueue p ->
  exists cmds body,
    Table.parse (tl argv) = Some cmds /\
    forallb (fun a => negb (Table.is_reboot_op a)) body = true /\
    action_list p =
    body ++ (if existsb Table.sets_reboot cmds then [Reboot]
             else if existsb Table.sets_reboot_bootloader cmds
                  then [Command "reboot-bootloader" "rebooting into bootloader"]
                  else []).
Proof.
  intros Hmain. destruct (main_run_inv os argv p Hmain) as (a0 & toks & -> & Hrun).
  unfold bind in Hrun.
  destruct (command_loop os (List.length toks) toks (initial os)) as [[] p1| | | |] eqn:El;
    try discriminate.
  destruct (loop_ret_inv os _ _ _ _ El) as (cmds & body & Hp & Hq & Hn & Hr & Hb).
  destruct (queue_reboot_run os p1) as (p2 & Hrun2 & Hq2 & _).
  rewrite Hrun2 in Hrun. injection Hrun as <-.
  exists cmds, body. split; [exact Hp|]. split; [exact Hn|].
  rewrite Hq2, Hq, Hr, Hb. reflexivity.
Qed.

Lemma reboot_resolved_once_witness :
  exists cmds body,
    Table.parse ["reboot"; "reboot-bootloader"; "continue"; "reboot"] = Some cmds /\
    forallb (fun a => negb (Table.is_reboot_op a)) body = true /\
    [Command "continue" "resuming boot"; Reboot] =
    body ++ (if existsb Table.sets_reboot cmds then [Reboot]
             else if existsb Table.sets_reboot_bootloader cmds
                  then [Command "reboot-bootloader" "rebooting into bootloader"]
                  else []).
Proof.
  refine (reboot_resolved_once
            (Sample.system Sample.no_files Sample.full_zip)
            ["fastboot"; "reboot"; "reboot-bootloader"; "continue"; "reboot"]
            {| serial := None; vendor_id := 0;
               action_list := [Command "continue" "resuming boot"; Reboot];
               wants_reboot := true; wants_reboot_bootloader := true |} _).
  vm_compute. reflexivity.
Defined.

(** ** The signature command *)

Lemma loop_dies_at_head (os : OS) (fuel : nat) (t : string) (rest : list string)
  (p p' : prog) fmt args :
  step os (t :: rest) p = Die fmt args p' ->
  (command_loop os (S fuel) (t :: rest) ;; queue_reboot) p = Die fmt args p'.
Proof.
  intros H. apply bind_die. rewrite command_loop_step. apply bind_die. exact H.
Qed.

(** With a file that loads, [signature] dies with "signature must be
    256 bytes", leaving the queue as it was, unless the size [load_file]
    stored is 256; with 256 it appends the Download of the data and,
    right after it, the Command "signature". *)
Lemma signature_checks_stored_size (os : OS) (file : string) (rest : list string)
  (p : prog) (data : bytes) (sz : Z) :
  load_file os file = Some (data, sz) ->
  (sz <> 256 ->
   step os ("signature" :: file :: rest) p = Die "signature must be 256 bytes" [] p /\
   (forall fuel,
       (command_loop os (S fuel) ("signature" :: file :: rest) ;; queue_reboot) p =
       Die "signature must be 256 bytes" [] p) /\
   String.index 0 "must be 256 bytes" (format "signature must be 256 bytes" []) = Some 10%nat) /\
  (sz = 256 ->
   step os ("signature" :: file :: rest) p =
   Ret rest (set_action_list
               (action_list p ++
                [Download "signature" data 256;
                 Command "signature" "installing signature"]) p)).
Proof.
  intros Hload. rewrite step_signature, Hload. split.
  - intros Hsz. destruct (Z.eqb_spec sz 256) as [E|_]; [contradiction|].
    split; [reflexivity|]. split; [|reflexivity].
    intros fuel. apply loop_dies_at_head. rewrite step_signature, Hload.
    destruct (Z.eqb_spec sz 256) as [E|_]; [contradiction | reflexivity].
  - intros ->. reflexivity.
Qed.

Lemma signature_of_256_bytes :
  step (Sample.sized 256 (Sample.only "sig.bin") Sample.full_zip)
    ["signature"; "sig.bin"; "reboot"]
    (initial (Sample.sized 256 (Sample.only "sig.bin") Sample.full_zip)) =
  Ret ["reboot"]
    (set_action_list
       ([] ++ [Download "signature" [] 256; Command "signature" "installing signature"])
       (initial (Sample.sized 256 (Sample.only "sig.bin") Sample.full_zip))).
Proof.
  refine (proj2 (signature_checks_stored_size
                   (Sample.sized 256 (Sample.only "sig.bin") Sample.full_zip)
                   "sig.bin" ["reboot"] _ [] 256 _) _).
  - reflexivity.
  - reflexivity.
Defined.

Lemma to_int_fits (z : Z) : -2147483648 <= z < 2147483648 -> to_int z = z.
Proof.
  intros H. unfold to_int. rewrite Z.mod_small by lia. lia.
Qed.

(** The size [load_file] stores is the size of the file as long as that
    fits an [int]. *)
Lemma load_file_stores_size (os : OS) (fn : string) (data : bytes) (sz : Z) :
  load_file os fn = Some (data, sz) ->
  sz = to_int (sys_lseek_end os (sys_open os fn)) /\
  (0 <= sys_lseek_end os (sys_open os fn) < 2147483648 ->
   sz = sys_lseek_end os (sys_open os fn)).
Proof.
  unfold load_file.
  set (fd := sys_open os fn). set (size := sys_lseek_end os fd).
  destruct (fd <? 0); [discriminate|].
  destruct (to_int size <? 0); [discriminate|].
  destruct (negb (sys_lseek_set os fd =? 0)); [discriminate|].
  destruct (negb (sys_malloc os (to_int size))); [discriminate|].
  destruct (sys_read os fd (to_int size)) as [k d].
  destruct (negb (k =? to_int size)); [discriminate|].
  intros [= _ <-]. split; [reflexivity|]. intros Hlt. apply to_int_fits. lia.
Qed.

(** C6. The size test of [signature] is made on the [int] into which
    [load_file] narrows the offset [lseek] returns.  A file of
    2^32 + 256 bytes loads as its first 256 bytes and passes the test:
    [main] queues the Download and the Command and goes on to run the
    queue, where the claim has the process fail with "must be 256
    bytes". *)
Theorem signature_accepts_oversized_file :
  sys_lseek_end Sample.big_signature (sys_open Sample.big_signature "sig.bin") =
    4294967296 + 256 /\
  load_file Sample.big_signature "sig.bin" = Some (repeat x00 256, 256) /\
  main Sample.big_signature ["fastboot"; "signature"; "sig.bin"] =
  RunQueue (set_action_list
              [Download "signature" (repeat x00 256) 256;
               Command "signature" "installing signature"]
              (initial Sample.big_signature)).
Proof. repeat split. Qed.

(** ** The oem command, as a whole *)

(** C8 (amended). When at least one word follows [oem] and the tokens
    from [oem] on, joined by single spaces, take at most 255 characters,
    the iteration consumes every remaining token and appends exactly one
    Command carrying the joined text (which begins with "oem") and an
    empty description. *)
Theorem oem_joins_tokens (os : OS) (w : string) (ws : list string) (p : prog) :
  strlen (String.concat " " ("oem" :: w :: ws)) <= 255 ->
  step os ("oem" :: w :: ws) p =
  Ret [] (set_action_list
            (action_list p ++ [Command (String.concat " " ("oem" :: w :: ws)) ""]) p).
Proof.
  intros H. rewrite step_oem.
  destruct (Z.leb_spec (strlen (String.concat " " ("oem" :: w :: ws))) 255);
    [reflexivity | lia].
Qed.

Lemma oem_joins_tokens_witness :
  step (Sample.system Sample.no_files Sample.full_zip) ["oem"; "unlock"; "now"]
    (initial (Sample.system Sample.no_files Sample.full_zip)) =
  Ret [] (set_action_list
            ([] ++ [Command "oem unlock now" ""])
            (initial (Sample.system Sample.no_files Sample.full_zip))).
Proof.
  refine (oem_joins_tokens (Sample.system Sample.no_files Sample.full_zip)
            "unlock" ["now"] _ _).
  vm_compute. discriminate.
Defined.

(** C8, as stated, fails: for the token stream [oem] alone nothing is
    appended, and the queue handed to the engine is empty. *)
Lemma bare_oem_queues_nothing :
  step (Sample.system Sample.no_files Sample.full_zip) ["oem"]
    (initial (Sample.system Sample.no_files Sample.full_zip)) =
  Ret [] (initial (Sample.system Sample.no_files Sample.full_zip)) /\
  main (Sample.system Sample.no_files Sample.full_zip) ["fastboot"; "oem"] =
  RunQueue (initial (Sample.system Sample.no_files Sample.full_zip)) /\
  action_list (initial (Sample.system Sample.no_files Sample.full_zip)) = [].
Proof. repeat split. Qed.

(** ** [devices] and [help] *)

Lemma steps_into_loop (os : OS) (n fuel : nat) (args argv' : list string) (p p' : prog) :
  steps os n args p = Ret argv' p' ->
  (List.length args <= fuel)%nat ->
  exists fuel', (List.length argv' <= fuel')%nat /\
                command_loop os fuel args p = command_loop os fuel' argv' p'.
Proof.
  revert fuel args p; induction n as [|n IH]; intros fuel args p Hsteps Hlen.
  - injection Hsteps as <- <-. exists fuel. auto.
  - cbn [steps] in Hsteps. unfold bind in Hsteps.
    destruct (step os args p) as [a1 p1| | | |] eqn:E; try discriminate.
    destruct args as [|t rest]; [discriminate|].
    assert (Hne : t :: rest <> []) by discriminate.
    destruct (step_ret_inv os _ _ _ _ Hne E) as (c & Hh & _).
    apply parse_head_shorter in Hh. cbn [List.length] in Hh, Hlen.
    destruct fuel as [|fuel]; [lia|].
    destruct (IH fuel a1 p1 Hsteps ltac:(lia)) as (fuel' & Hf & Hl).
    exists fuel'. split; [exact Hf|].
    rewrite command_loop_step, (bind_ret _ _ _ _ _ E). exact Hl.
Qed.

Lemma step_devices_help (os : OS) (t : string) (rest : list string) (p : prog) :
  t = "devices" \/ t = "help" -> step os (t :: rest) p = Usage 1.
Proof.
  intros [-> | ->]; apply step_other; cbn; intuition discriminate.
Qed.

(** C10 (amended). [devices] and [help] are commands only as the first
    argument.  When the command loop, after one or more iterations,
    stands at a [devices] or [help] token, the process prints the usage
    text and exits with status 1; it neither lists devices nor exits
    with status 0. *)
Theorem devices_help_only_first (os : OS) :
  (forall a0 rest, main os (a0 :: "devices" :: rest) = ExitDevices) /\
  (forall a0 rest, main os (a0 :: "help" :: rest) = ExitUsage 0) /\
  (forall a0 args n t rest p,
      t = "devices" \/ t = "help" ->
      (0 < n)%nat ->
      steps os n args (initial os) = Ret (t :: rest) p ->
      main os (a0 :: args) = ExitUsage 1).
Proof.
  split; [reflexivity|]. split; [reflexivity|].
  intros a0 args n t rest p Ht Hn Hsteps.
  destruct n as [|n]; [lia|].
  destruct args as [|t0 args]; [reflexivity|].
  assert (Hfirst : forall q, step os (t0 :: args) q <> Usage 1).
  { intros q Hq. cbn [steps] in Hsteps. unfold bind in Hsteps.
    destruct (step os (t0 :: args) (initial os)) eqn:E; try discriminate.
    destruct (String.eqb_spec t0 "devices") as [->|N1];
      [rewrite step_devices_help in E by auto; discriminate|].
    destruct (String.eqb_spec t0 "help") as [->|N2];
      [rewrite step_devices_help in E by auto; discriminate|].
    clear - Hq E N1 N2.
    pose proof (step_sim os (t0 :: args) q ltac:(discriminate)) as Hs.
    pose proof (step_sim os (t0 :: args) (initial os) ltac:(discriminate)) as Hs0.
    rewrite Hq in Hs. rewrite E in Hs0.
    inversion Hs; subst; try contradiction.
    inversion Hs0; subst; try contradiction; congruence. }
  unfold main. rewrite !streq_eqb.
  destruct (String.eqb_spec t0 "devices") as [->|_].
  { exfalso. apply (Hfirst (initial os)). apply step_devices_help. auto. }
  destruct (String.eqb_spec t0 "help") as [->|_].
  { exfalso. apply (Hfirst (initial os)). apply step_devices_help. auto. }
  destruct (steps_into_loop os _ (List.length (t0 :: args)) _ _ _ _ Hsteps (le_n _))
    as (fuel' & Hf & Hl).
  cbn [List.length] in Hf. destruct fuel' as [|fuel']; [lia|].
  rewrite (bind_usage _ _ _ 1); [reflexivity|].
  rewrite Hl, command_loop_step. apply bind_usage. apply step_devices_help. exact Ht.
Qed.

Lemma devices_help_only_first_witness :
  main (Sample.system Sample.no_files Sample.full_zip)
    ["fastboot"; "-s"; "0123456789"; "devices"] = ExitUsage 1.
Proof.
  refine (proj2 (proj2 (devices_help_only_first
                          (Sample.system Sample.no_files Sample.full_zip)))
            "fastboot" ["-s"; "0123456789"; "devices"] 1%nat "devices" []
            (set_serial (Some "0123456789")
               (initial (Sample.system Sample.no_files Sample.full_zip))) _ _ _).
  - left; reflexivity.
  - lia.
  - reflexivity.
Defined.

(** C10, as stated, fails: in [getvar devices] the token [devices] is
    preceded by another token, yet it is taken as the argument of
    [getvar]; nothing is treated as unrecognised and the queue is run. *)
Lemma devices_as_argument :
  main (Sample.system Sample.no_files Sample.full_zip) ["fastboot"; "getvar"; "devices"] =
  RunQueue (set_action_list [Display "devices" "devices"]
              (initial (Sample.system Sample.no_files Sample.full_zip))).
Proof. reflexivity. Qed.

(** ** The vendor id option *)

Lemma scan_digits_digits (base : Z) (s : string) (acc : Z) (seen : bool) :
  match Numeral.digits base acc s with
  | Some v =>
      scan_digits base acc seen s =
      (v, match s with EmptyString => seen | String _ _ => true end, EmptyString)
  | None => snd (scan_digits base acc seen s) <> EmptyString
  end.
Proof.
  revert acc seen; induction s as [|c s IH]; intros acc seen; cbn; [reflexivity|].
  destruct (digit_in base c) as [d|]; [|cbn; discriminate].
  specialize (IH (acc * base + d) true).
  destruct (Numeral.digits base (acc * base + d) s); [|exact IH].
  rewrite IH. destruct s; reflexivity.
Qed.

Lemma finish_number (nptr : string) (base : Z) (s3 : string) :
  nptr <> "" ->
  match Numeral.number base s3 with
  | Some v =>
      if v <=? 65535 then finish nptr base s3 = (v, "")
      else accepted (finish nptr base s3) = false
  | None => accepted (finish nptr base s3) = false
  end.
Proof.
  intros Hne. unfold finish, accepted.
  assert (Hn : String.eqb nptr "" = false) by (apply String.eqb_neq; exact Hne).
  destruct s3 as [|c s3]; [cbn; rewrite Hn; reflexivity|].
  cbn [Numeral.number].
  pose proof (scan_digits_digits base (String c s3) 0 false) as H.
  destruct (Numeral.digits base 0 (String c s3)) as [v|].
  - rewrite H. cbn [negb]. unfold ULONG_MAX.
    destruct (Z.leb_spec v 65535) as [Hv|Hv].
    + destruct (Z.ltb_spec 18446744073709551615 v); [lia | reflexivity].
    + destruct (Z.ltb_spec 18446744073709551615 v); cbn [fst snd String.eqb andb].
      * reflexivity.
      * destruct (Z.leb_spec v 65535); [lia | reflexivity].
  - destruct (scan_digits base 0 false (String c s3)) as [[acc seen] rest].
    cbn [snd] in H. apply String.eqb_neq in H.
    destruct seen; cbn [negb]; [|cbn [fst snd]; rewrite Hn; reflexivity].
    destruct (ULONG_MAX <? acc); cbn [fst snd]; rewrite H; reflexivity.
Qed.

Lemma is_x_not_octal (x : ascii) : is_x x = true -> digit_in 8 x = None.
Proof.
  unfold is_x. destruct (Ascii.eqb_spec x "x") as [->|_]; [reflexivity|].
  destruct (Ascii.eqb_spec x "X") as [->|_]; [reflexivity | discriminate].
Qed.

Lemma pick_base_constant (s2 : string) :
  Numeral.constant s2 = Numeral.number (fst (pick_base s2)) (snd (pick_base s2)).
Proof.
  unfold Numeral.constant, pick_base.
  destruct s2 as [|z [|x [|h r]]]; [reflexivity | | |].
  - destruct (Ascii.eqb z "0"); reflexivity.
  - destruct (Ascii.eqb z "0") eqn:Ez; [|reflexivity].
    destruct (is_x x) eqn:Ex; [|reflexivity].
    apply Ascii.eqb_eq in Ez; subst z.
    cbn. rewrite (is_x_not_octal x Ex). reflexivity.
  - destruct (Ascii.eqb z "0") eqn:Ez; [|reflexivity].
    destruct (is_x x) eqn:Ex; [|reflexivity].
    apply Ascii.eqb_eq in Ez; subst z.
    unfold is_digit_in. cbn [andb].
    destruct (digit_in 16 h) as [d|] eqn:Eh; cbn [fst snd].
    + reflexivity.
    + cbn. rewrite Eh, (is_x_not_octal x Ex). reflexivity.
Qed.

Lemma strtoul_unsigned (s : string) :
  Numeral.minus_signed s = false ->
  strtoul s =
  finish s (fst (pick_base (snd (skip_sign (skip_spaces s)))))
           (snd (pick_base (snd (skip_sign (skip_spaces s))))).
Proof.
  intros Hm. unfold strtoul, finish.
  assert (Hs : fst (skip_sign (skip_spaces s)) = false).
  { unfold Numeral.minus_signed, skip_sign in *.
    destruct (skip_spaces s) as [|c r]; [reflexivity|].
    rewrite Hm. destruct (Ascii.eqb c "+"); reflexivity. }
  destruct (skip_sign (skip_spaces s)) as [neg s2]. cbn [fst snd] in *. subst neg.
  destruct (pick_base s2) as [base s3]. cbn [fst snd].
  destruct (scan_digits base 0 false s3) as [[acc seen] rest]. reflexivity.
Qed.

Lemma parse_u16_constant (s : string) :
  Numeral.minus_signed s = false ->
  Numeral.parse_u16 s =
  match Numeral.constant (snd (skip_sign (skip_spaces s))) with
  | Some v => if v <=? 65535 then Some v else None
  | None => None
  end.
Proof.
  unfold Numeral.minus_signed, Numeral.parse_u16, skip_sign.
  destruct (skip_spaces s) as [|c r]; [reflexivity|]. intros ->.
  destruct (Ascii.eqb c "+"); reflexivity.
Qed.

Lemma strtoul_numeral (s : string) :
  s <> "" ->
  Numeral.minus_signed s = false ->
  match Numeral.parse_u16 s with
  | Some v => strtoul s = (v, "") /\ 0 <= v <= 65535
  | None => strtoul_ok s = false
  end.
Proof.
  intros Hne Hm. rewrite (parse_u16_constant s Hm), pick_base_constant.
  pose proof (strtoul_range s) as Hr.
  unfold strtoul_ok. rewrite (strtoul_unsigned s Hm) in *.
  set (b := pick_base (snd (skip_sign (skip_spaces s)))) in *.
  pose proof (finish_number s (fst b) (snd b) Hne) as H.
  destruct (Numeral.number (fst b) (snd b)) as [v|].
  - destruct (Z.leb_spec v 65535) as [Hv|Hv].
    + rewrite H in *. cbn [fst] in Hr. split; [reflexivity | lia].
    + destruct (finish s (fst b) (snd b)) as [val rest]. exact H.
  - destruct (finish s (fst b) (snd b)) as [val rest]. exact H.
Qed.

(** C7 (amended). For a non-empty [-i] argument that is not minus-signed,
    the iteration dies with "invalid vendor id" exactly when the argument
    is not a number of at most 16 bits, and otherwise sets the vendor id
    to that number.  The fatal error leaves the queue as the earlier
    tokens built it and ends the process before the reboot is queued and
    before any device is opened. *)
Theorem vendor_id_option (os : OS) (s : string) (rest : list string) (p : prog) :
  s <> "" ->
  Numeral.minus_signed s = false ->
  match Numeral.parse_u16 s with
  | Some v => step os ("-i" :: s :: rest) p = Ret rest (set_vendor_id v p)
  | None =>
      step os ("-i" :: s :: rest) p = Die "invalid vendor id '%s'" [s] p /\
      forall fuel,
        (command_loop os (S fuel) ("-i" :: s :: rest) ;; queue_reboot) p =
        Die "invalid vendor id '%s'" [s] p
  end.
Proof.
  intros Hne Hm. pose proof (strtoul_numeral s Hne Hm) as H.
  destruct (Numeral.parse_u16 s) as [v|].
  - destruct H as [Hs Hv]. rewrite step_vendor. unfold strtoul_ok. rewrite Hs.
    cbn [fst String.eqb andb]. destruct (Z.leb_spec v 65535); [|lia].
    rewrite Z.mod_small by lia. reflexivity.
  - assert (Hd : step os ("-i" :: s :: rest) p = Die "invalid vendor id '%s'" [s] p).
    { rewrite step_vendor, H. reflexivity. }
    split; [exact Hd|]. intros fuel. apply loop_dies_at_head. exact Hd.
Qed.

Lemma vendor_id_option_witness :
  step (Sample.system Sample.no_files Sample.full_zip) ["-i"; "0x18d1"; "reboot"]
    (initial (Sample.system Sample.no_files Sample.full_zip)) =
  Ret ["reboot"] (set_vendor_id 6353 (initial (Sample.system Sample.no_files Sample.full_zip))).
Proof.
  refine (vendor_id_option (Sample.system Sample.no_files Sample.full_zip)
            "0x18d1" ["reboot"] _ _ _).
  - discriminate.
  - reflexivity.
Defined.

(** C7, as stated, fails: with [getvar x -i zzz] the fatal error for the
    vendor id comes after a Display has been queued. *)
Lemma vendor_id_dies_after_queueing :
  main (Sample.system Sample.no_files Sample.full_zip)
    ["fastboot"; "getvar"; "x"; "-i"; "zzz"] =
  ExitDie "invalid vendor id '%s'" ["zzz"]
    (set_action_list [Display "x" "x"]
       (initial (Sample.system Sample.no_files Sample.full_zip))).
Proof. reflexivity. Qed.

(** The empty argument is accepted as vendor id 0: [strtoul] converts
    nothing and leaves [endptr] at the terminating NUL. *)
Lemma vendor_id_empty_accepted :
  main (Sample.system Sample.no_files Sample.full_zip) ["fastboot"; "-i"; ""; "getvar"; "x"] =
  RunQueue (set_action_list [Display "x" "x"]
              (initial (Sample.system Sample.no_files Sample.full_zip))).
Proof. reflexivity. Qed.

(** ** The queue against the table *)








(** Without a token there is no queue: [main] prints the usage text and
    returns 1 before the command loop, although the effects of no
    command at all are the empty queue. *)
Lemma no_queue_without_tokens :
  Table.parse [] = Some [] /\
  Table.queue_of (Sample.system Sample.no_files Sample.full_zip) [] = Some [] /\
  main (Sample.system Sample.no_files Sample.full_zip) ["fastboot"] = ExitUsage 1 /\
  queue_built (Sample.system Sample.no_files Sample.full_zip) ["fastboot"] = None.
Proof. repeat split. Qed.

(** ** The capacity of the decompression buffer *)

Lemma shr_m_shr_1 (mrs : shr_record) :
  0 <= shr_m mrs -> shr_m (shr_1 mrs) = shr_m mrs / 2.
Proof.
  destruct mrs as [m r s]; cbn [shr_m]; intros Hm.
  rewrite <- Z.div2_div.
  destruct m as [|[p|p|]|p]; try reflexivity; lia.
Qed.

Lemma pow2_xO (k : positive) : 2 ^ Zpos k~0 = 2 ^ Zpos k * 2 ^ Zpos k.
Proof. rewrite <- Z.pow_add_r by lia. f_equal; lia. Qed.

Lemma pow2_xI (k : positive) : 2 ^ Zpos k~1 = 2 * (2 ^ Zpos k * 2 ^ Zpos k).
Proof.
  rewrite <- Z.pow_add_r, <- Z.pow_succ_r by lia. f_equal; lia.
Qed.

Lemma pow2_pos (n : Z) : 0 <= n -> 0 < 2 ^ n.
Proof. intros; apply Z.pow_pos_nonneg; lia. Qed.

Lemma shr_m_iter (k : positive) (mrs : shr_record) :
  0 <= shr_m mrs ->
  shr_m (iter_pos shr_1 k mrs) = shr_m mrs / 2 ^ Zpos k.
Proof.
  revert mrs; induction k as [k IH|k IH|]; intros mrs Hm; cbn [iter_pos].
  - pose proof (pow2_pos (Zpos k) ltac:(lia)) as Hp.
    assert (H1 : 0 <= shr_m (shr_1 mrs)) by (rewrite shr_m_shr_1 by lia; apply Z.div_pos; lia).
    assert (H2 : 0 <= shr_m (iter_pos shr_1 k (shr_1 mrs))).
    { rewrite IH by lia. apply Z.div_pos; lia. }
    rewrite IH, IH, shr_m_shr_1 by lia.
    rewrite !Z.div_div by lia. rewrite pow2_xI. f_equal; lia.
  - pose proof (pow2_pos (Zpos k) ltac:(lia)) as Hp.
    assert (H2 : 0 <= shr_m (iter_pos shr_1 k mrs)).
    { rewrite IH by lia. apply Z.div_pos; lia. }
    rewrite IH, IH by lia.
    rewrite !Z.div_div by lia. rewrite pow2_xO. reflexivity.
  - rewrite shr_m_shr_1 by lia. reflexivity.
Qed.

Lemma digits_bounds (p : positive) :
  2 ^ (Zpos (digits2_pos p) - 1) <= Zpos p < 2 ^ Zpos (digits2_pos p).
Proof.
  induction p as [p IH|p IH|]; cbn [digits2_pos].
  - rewrite Pos2Z.inj_succ.
    replace (Z.succ (Zpos (digits2_pos p)) - 1) with (Z.succ (Zpos (digits2_pos p) - 1)) by lia.
    rewrite !Z.pow_succ_r by lia. lia.
  - rewrite Pos2Z.inj_succ.
    replace (Z.succ (Zpos (digits2_pos p)) - 1) with (Z.succ (Zpos (digits2_pos p) - 1)) by lia.
    rewrite !Z.pow_succ_r by lia. lia.
  - cbn. lia.
Qed.

Lemma digits_unique (p : positive) (k : Z) :
  2 ^ (k - 1) <= Zpos p < 2 ^ k -> Zpos (digits2_pos p) = k.
Proof.
  intros [Hl Hu]. pose proof (digits_bounds p) as [Dl Du].
  set (d := Zpos (digits2_pos p)) in *.
  assert (0 < k). { destruct (Z.ltb_spec 0 k); [lia|]. rewrite Z.pow_neg_r in Hl by lia.
    destruct (Z.eq_dec k 0) as [->|]; [cbn in Hu; lia|]. rewrite Z.pow_neg_r in Hu by lia. lia. }
  destruct (Z.lt_trichotomy d k) as [H1|[H1|H1]]; [|exact H1|].
  - assert (2 ^ d <= 2 ^ (k - 1)) by (apply Z.pow_le_mono_r; lia). lia.
  - assert (2 ^ k <= 2 ^ (d - 1)) by (apply Z.pow_le_mono_r; lia). lia.
Qed.

Lemma shr_fexp_by (m E n : Z) (l : location) :
  0 < m ->
  fexp 53 1024 (Zdigits2 m + E) - E = n ->
  shr_fexp 53 1024 m E l =
  match n with
  | Zpos k => (iter_pos shr_1 k (shr_record_of_loc m l), E + n)
  | _ => (shr_record_of_loc m l, E)
  end.
Proof. intros Hm Hn. unfold shr_fexp, shr. rewrite Hn. reflexivity. Qed.

Lemma shr_m_of_loc (m : Z) (l : location) : shr_m (shr_record_of_loc m l) = m.
Proof. destruct l as [|[]]; reflexivity. Qed.

Lemma round_nearest_even_range (q : Z) (l : location) :
  q <= round_nearest_even q l <= q + 1.
Proof. unfold round_nearest_even. destruct l as [|[]]; try destruct (Z.even q); lia. Qed.

Lemma round_truncate (pm : positive) (E n : Z) :
  1 <= n ->
  Zpos (digits2_pos pm) = 53 + n ->
  -1074 <= E + n <= -1 ->
  exists m2,
    Zpos pm / 2 ^ n <= m2 <= Zpos pm / 2 ^ n + 1 /\
    Double.truncate (binary_round_aux 53 1024 false (Zpos pm) E loc_Exact) =
    Some (m2 / 2 ^ (- (E + n))).
Proof.
  intros Hn Hd He.
  pose proof (digits_bounds pm) as Hb. rewrite Hd in Hb.
  pose proof (pow2_pos n ltac:(lia)) as Hpn.
  replace (53 + n - 1) with (52 + n) in Hb by lia.
  rewrite !Z.pow_add_r in Hb by lia.
  set (q := Zpos pm / 2 ^ n).
  assert (Hq : 2 ^ 52 <= q < 2 ^ 53).
  { split.
    - apply Z.div_le_lower_bound; lia.
    - apply Z.div_lt_upper_bound; lia. }
  unfold binary_round_aux.
  rewrite (shr_fexp_by (Zpos pm) E n) by
    (try lia; unfold fexp, emin, Zdigits2; rewrite Hd; lia).
  destruct n as [|k|k]; try lia.
  set (mrs := iter_pos shr_1 k (shr_record_of_loc (Zpos pm) loc_Exact)).
  assert (Hm : shr_m mrs = q).
  { unfold mrs. rewrite shr_m_iter; rewrite shr_m_of_loc; [reflexivity | lia]. }
  rewrite Hm.
  pose proof (round_nearest_even_range q (loc_of_shr_record mrs)) as Hr.
  set (m2 := round_nearest_even q (loc_of_shr_record mrs)) in *.
  exists m2. split; [exact Hr|].
  change (2 ^ 52) with 4503599627370496 in *. change (2 ^ 53) with 9007199254740992 in *.
  destruct (Z.eq_dec m2 9007199254740992) as [Heq|Hneq].
  - rewrite Heq.
    rewrite (shr_fexp_by 9007199254740992 (E + Zpos k) 1) by
      (try lia; unfold fexp, emin; cbn [Zdigits2 digits2_pos Pos.succ]; lia).
    cbn [iter_pos shr_record_of_loc shr_1 shr_m].
    destruct (Z.leb_spec (E + Zpos k + 1) (1024 - 53)); [|lia].
    cbn [Double.truncate]. f_equal.
    destruct (Z.leb_spec 0 (E + Zpos k + 1)).
    + replace (E + Zpos k + 1) with 0 by lia. replace (- (E + Zpos k)) with 1 by lia.
      reflexivity.
    + replace (- (E + Zpos k)) with (Z.succ (- (E + Zpos k + 1))) by lia.
      rewrite Z.pow_succ_r by lia.
      rewrite <- Z.div_div by (try apply pow2_pos; lia). reflexivity.
  - destruct m2 as [|pm2|pm2]; try lia.
    assert (Hd2 : Zpos (digits2_pos pm2) = 53) by (apply digits_unique; cbn; lia).
    rewrite (shr_fexp_by (Zpos pm2) (E + Zpos k) 0) by
      (try lia; unfold fexp, emin, Zdigits2; rewrite Hd2; lia).
    cbn [shr_record_of_loc shr_m].
    destruct (Z.leb_spec (E + Zpos k) (1024 - 53)); [|lia].
    cbn [Double.truncate].
    destruct (Z.leb_spec 0 (E + Zpos k)); [lia|]. reflexivity.
Qed.

Lemma iter_xO (p k : positive) : Zpos (Pos.iter xO p k) = Zpos p * 2 ^ Zpos k.
Proof.
  induction k as [|k IH] using Pos.peano_ind.
  - cbn [Pos.iter]. lia.
  - rewrite Pos.iter_succ, Pos2Z.inj_succ, Z.pow_succ_r by lia.
    change (Zpos (Pos.iter xO p k)~0) with (2 * Zpos (Pos.iter xO p k)). lia.
Qed.

Lemma of_unsigned_pos (p : positive) :
  Zpos (digits2_pos p) <= 53 ->
  exists mz,
    Double.of_unsigned (Zpos p) = S754_finite false mz (Zpos (digits2_pos p) - 53) /\
    Zpos mz = Zpos p * 2 ^ (53 - Zpos (digits2_pos p)).
Proof.
  intros Hd. set (d := Zpos (digits2_pos p)) in *.
  pose proof (digits_bounds p) as Hb. fold d in Hb.
  assert (Hd1 : 1 <= d) by (unfold d; lia).
  unfold Double.of_unsigned, Double.prec, Double.emax, binary_normalize, binary_round.
  assert (Hf : fexp 53 1024 (Zpos (digits2_pos p) + 0) = d - 53).
  { unfold fexp, emin. fold d. lia. }
  rewrite Hf.
  assert (Hs : exists mz, shl_align p 0 (d - 53) = (mz, d - 53) /\
                          Zpos mz = Zpos p * 2 ^ (53 - d)).
  { unfold shl_align. rewrite Z.sub_0_r.
    destruct (d - 53) as [|k|k] eqn:Ek; try lia.
    - exists p. replace (53 - d) with 0 by lia. split; [reflexivity | lia].
    - exists (Pos.iter xO p k). split; [reflexivity|].
      rewrite iter_xO. f_equal. f_equal. lia. }
  destruct Hs as (mz & -> & Hmz). exists mz. split; [|exact Hmz].
  assert (Hdz : Zpos (digits2_pos mz) = 53).
  { apply digits_unique. rewrite Hmz.
    replace (2 ^ (53 - 1)) with (2 ^ (d - 1) * 2 ^ (53 - d))
      by (rewrite <- Z.pow_add_r by lia; f_equal; lia).
    replace (2 ^ 53) with (2 ^ d * 2 ^ (53 - d))
      by (rewrite <- Z.pow_add_r by lia; f_equal; lia).
    pose proof (pow2_pos (53 - d) ltac:(lia)). nia. }
  unfold binary_round_aux.
  rewrite (shr_fexp_by (Zpos mz) (d - 53) 0) by
    (try lia; unfold fexp, emin, Zdigits2; rewrite Hdz; lia).
  cbn [shr_record_of_loc shr_m loc_of_shr_record round_nearest_even].
  rewrite (shr_fexp_by (Zpos mz) (d - 53) 0) by
    (try lia; unfold fexp, emin, Zdigits2; rewrite Hdz; lia).
  cbn [shr_record_of_loc shr_m].
  destruct (Z.leb_spec (d - 53) (1024 - 53)); [reflexivity | lia].
Qed.

Lemma datasz_large (p : positive) :
  1001 <= Zpos p <= 4290676618 ->
  exists c, datasz_of (Zpos p) = Some c /\ Zpos p < c.
Proof.
  intros Hp.
  pose proof (digits_bounds p) as Hb. set (d := Zpos (digits2_pos p)) in *.
  assert (Hd : 1 <= d <= 32).
  { split; [unfold d; lia|].
    destruct (Z.leb_spec d 32) as [|H]; [assumption|].
    assert (2 ^ 32 <= 2 ^ (d - 1)) by (apply Z.pow_le_mono_r; lia).
    change (2 ^ 32) with 4294967296 in *. lia. }
  destruct (of_unsigned_pos p ltac:(fold d; lia)) as (mz & Hof & Hmz). fold d in Hof, Hmz.
  unfold datasz_of, Double.mul, Double.c_1_001, Double.prec, Double.emax. rewrite Hof.
  cbn [SFmul xorb].
  set (mc := 4508103226997866%positive).
  pose proof (pow2_pos (53 - d) ltac:(lia)) as Hs.
  assert (HM : Zpos (mz * mc) = Zpos p * Zpos mc * 2 ^ (53 - d)).
  { rewrite Pos2Z.inj_mul, Hmz. ring. }
  assert (Hmzb : 2 ^ 52 <= Zpos mz < 2 ^ 53).
  { rewrite Hmz.
    replace (2 ^ 52) with (2 ^ (d - 1) * 2 ^ (53 - d))
      by (rewrite <- Z.pow_add_r by lia; f_equal; lia).
    replace (2 ^ 53) with (2 ^ d * 2 ^ (53 - d))
      by (rewrite <- Z.pow_add_r by lia; f_equal; lia).
    nia. }
  change (2 ^ 52) with 4503599627370496 in Hmzb.
  change (2 ^ 53) with 9007199254740992 in Hmzb.
  pose proof (digits_bounds (mz * mc)) as HD. set (D := Zpos (digits2_pos (mz * mc))) in *.
  assert (HDr : 105 <= D <= 106).
  { assert (H1 : 2 ^ 104 <= Zpos (mz * mc) < 2 ^ 106).
    { rewrite Pos2Z.inj_mul. unfold mc.
      change (2 ^ 104) with (4503599627370496 * 4503599627370496).
      change (2 ^ 106) with (9007199254740992 * 9007199254740992). nia. }
    split.
    - destruct (Z.leb_spec 105 D) as [|H]; [assumption|].
      assert (2 ^ D <= 2 ^ 104) by (apply Z.pow_le_mono_r; lia). lia.
    - destruct (Z.leb_spec D 106) as [|H]; [assumption|].
      assert (2 ^ 106 <= 2 ^ (D - 1)) by (apply Z.pow_le_mono_r; lia). lia. }
  destruct (round_truncate (mz * mc) (d - 53 + -52) (D - 53) ltac:(lia)
              ltac:(fold D; lia) ltac:(lia)) as (m2 & Hm2 & Ht).
  unfold Double.to_unsigned. rewrite Ht.
  replace (- (d - 53 + -52 + (D - 53))) with (158 - d - D) by lia.
  set (t := 158 - d - D) in *.
  pose proof (pow2_pos t ltac:(unfold t; lia)) as Hpt.
  pose proof (pow2_pos (D - 53) ltac:(lia)) as Hpn.
  set (q := Zpos (mz * mc) / 2 ^ (D - 53)) in *.
  assert (Hq : q / 2 ^ t = Zpos p * Zpos mc / 2 ^ 52).
  { unfold q. rewrite Z.div_div by lia.
    rewrite <- Z.pow_add_r by (unfold t; lia).
    replace (D - 53 + t) with (52 + (53 - d)) by (unfold t; lia).
    rewrite HM, Z.pow_add_r by lia.
    rewrite Z.div_mul_cancel_r by lia. reflexivity. }
  assert (Hlo : Zpos p + 1 <= q / 2 ^ t).
  { rewrite Hq. apply Z.div_le_lower_bound; [reflexivity|].
    unfold mc. change (2 ^ 52) with 4503599627370496. lia. }
  assert (Hhi : q / 2 ^ t <= 4294967294).
  { rewrite Hq. apply Z.lt_succ_r. apply Z.div_lt_upper_bound; [reflexivity|].
    unfold mc. change (2 ^ 52) with 4503599627370496. lia. }
  assert (Hm2lo : q / 2 ^ t <= m2 / 2 ^ t) by (apply Z.div_le_mono; lia).
  assert (Hm2hi : m2 / 2 ^ t <= q / 2 ^ t + 1).
  { transitivity ((q + 1 * 2 ^ t) / 2 ^ t).
    - apply Z.div_le_mono; lia.
    - rewrite Z.div_add by lia. lia. }
  exists (m2 / 2 ^ t). split; [|lia].
  unfold UINT_MAX.
  destruct (Z.leb_spec 0 (m2 / 2 ^ t)); [|lia].
  destruct (Z.leb_spec (m2 / 2 ^ t) 4294967295); [reflexivity | lia].
Qed.

Lemma datasz_small_checked : Sample.small_sizes_checked = true.
Proof. vm_compute. reflexivity. Qed.

Lemma datasz_small (sz : Z) : 0 <= sz <= 1000 -> datasz_of sz = Some sz.
Proof.
  intros Hsz. pose proof datasz_small_checked as H. unfold Sample.small_sizes_checked in H.
  rewrite forallb_forall in H.
  specialize (H (Z.to_nat sz)). rewrite Z2Nat.id in H by lia.
  assert (Hin : In (Z.to_nat sz) (seq 0 1001)) by (apply in_seq; lia).
  specialize (H Hin). destruct (datasz_of sz) as [c|]; [|discriminate].
  apply Z.eqb_eq in H. subst c. reflexivity.
Qed.

Lemma datasz_last : datasz_of 4290676619 = Some 4294967295.
Proof. vm_compute. reflexivity. Qed.

Lemma datasz_of_range (sz : Z) :
  0 <= sz <= 4290676619 ->
  exists c, datasz_of sz = Some c /\ sz <= c /\
            (sz <= 1000 -> c = sz) /\ (1001 <= sz -> sz < c).
Proof.
  intros Hsz. destruct (Z.leb_spec sz 1000) as [Hs|Hs].
  - exists sz. rewrite datasz_small by lia. repeat split; lia.
  - destruct (Z.eq_dec sz 4290676619) as [->|Hne].
    + exists 4294967295. rewrite datasz_last. repeat split; lia.
    + destruct sz as [|p|p]; try lia.
      destruct (datasz_large p ltac:(lia)) as (c & Hc & Hlt).
      exists c. repeat split; try assumption; lia.
Qed.

(** C9 (amended). For an entry that [unzip_file] finds, of nominal size
    at most 4290676619, the capacity asked of [malloc] and handed to the
    decompressor is at least the nominal size; it equals the nominal
    size up to 1000 bytes and is strictly greater from 1001 bytes on. *)
Theorem unzip_capacity (os : OS) (zip : zipfile) (name : string) (entry : zipentry) :
  lookup_zipentry zip name = Some entry ->
  get_zipentry_size entry mod (UINT_MAX + 1) <= 4290676619 ->
  exists c,
    datasz_of (get_zipentry_size entry mod (UINT_MAX + 1)) = Some c /\
    unzip_file os zip name =
      (if negb (sys_malloc os c) then UnzipNull
       else match decompress_zipentry entry c with
            | None => UnzipNull
            | Some data => Unzipped data (get_zipentry_size entry mod (UINT_MAX + 1))
            end) /\
    get_zipentry_size entry mod (UINT_MAX + 1) <= c /\
    (get_zipentry_size entry mod (UINT_MAX + 1) <= 1000 ->
     c = get_zipentry_size entry mod (UINT_MAX + 1)) /\
    (1001 <= get_zipentry_size entry mod (UINT_MAX + 1) ->
     get_zipentry_size entry mod (UINT_MAX + 1) < c).
Proof.
  intros Hl Hsz. set (sz := get_zipentry_size entry mod (UINT_MAX + 1)) in *.
  assert (H0 : 0 <= sz) by (apply Z.mod_pos_bound; reflexivity).
  destruct (datasz_of_range sz ltac:(lia)) as (c & Hc & Hle & Hsmall & Hlarge).
  exists c. split; [exact Hc|]. split; [|auto].
  unfold unzip_file. rewrite Hl. fold sz. rewrite Hc. reflexivity.
Qed.

Lemma unzip_capacity_witness :
  exists c,
    datasz_of (4 mod (UINT_MAX + 1)) = Some c /\
    unzip_file (Sample.system Sample.no_files Sample.full_zip) Sample.full_zip "dnx.bin" =
      (if negb true then UnzipNull
       else match decompress_zipentry (Sample.entry "dnx.bin" true) c with
            | None => UnzipNull
            | Some data => Unzipped data (4 mod (UINT_MAX + 1))
            end) /\
    4 mod (UINT_MAX + 1) <= c /\
    (4 mod (UINT_MAX + 1) <= 1000 -> c = 4 mod (UINT_MAX + 1)) /\
    (1001 <= 4 mod (UINT_MAX + 1) -> 4 mod (UINT_MAX + 1) < c).
Proof.
  refine (unzip_capacity (Sample.system Sample.no_files Sample.full_zip)
            Sample.full_zip "dnx.bin" (Sample.entry "dnx.bin" true) _ _).
  - reflexivity.
  - vm_compute. discriminate.
Defined.

(** C9, as stated, fails: for an entry of nominal size 1 the capacity is
    1, not more; the entry below unzips only when it is given a buffer
    of exactly one byte. *)
Lemma capacity_equals_small_size :
  datasz_of 1 = Some 1 /\
  unzip_file (Sample.system Sample.no_files [Sample.one_byte_entry])
    [Sample.one_byte_entry] "boot.img" = Unzipped [x2a] 1.
Proof. split; vm_compute; reflexivity. Qed.

(** ** Device discovery *)

Lemma usb_open_match (p : prog) (bus : list usb_ifc_info) :
  usb_open (fun info => (match_fastboot p info, [])) bus =
  (find (fun info => match_fastboot p info =? 0) bus, []).
Proof.
  induction bus as [|info bus IH]; cbn [usb_open find]; [reflexivity|].
  destruct (match_fastboot p info =? 0); [reflexivity|]. rewrite IH. reflexivity.
Qed.

(** X1. [list_devices] opens nothing and prints one line for each
    interface [match_fastboot] accepts, in enumeration order: the serial
    number, or "no permissions" for a device that is not writable, or
    question marks for an empty serial number, then a tab and
    "fastboot". *)
Theorem list_devices_lines (p : prog) (bus : list usb_ifc_info) :
  list_devices p bus =
  (None,
   map (fun info => Stdout (device_label info ++ tab ++ "fastboot" ++ newline)%string)
       (filter (fun info => match_fastboot p info =? 0) bus)).
Proof.
  unfold list_devices.
  induction bus as [|info bus IH]; cbn [usb_open filter map]; [reflexivity|].
  unfold list_devices_callback at 1, device_label.
  destruct (match_fastboot p info =? 0); cbn [Z.eqb]; rewrite IH; [|reflexivity].
  cbn [map app]. f_equal. f_equal. f_equal.
  destruct (writable info); cbn [negb]; [|reflexivity].
  destruct (serial_number info); reflexivity.
Qed.

Lemma open_device_loop_found (p : prog) (bus_at : nat -> list usb_ifc_info)
  (k fuel t : nat) (announce : bool) (h : usb_ifc_info) :
  (forall j, (j < k)%nat ->
             find (fun info => match_fastboot p info =? 0) (bus_at (t + j)%nat) = None) ->
  find (fun info => match_fastboot p info =? 0) (bus_at (t + k)%nat) = Some h ->
  (k < fuel)%nat ->
  open_device_loop p bus_at fuel t announce =
  (Some (h, S (t + k)),
   match k with
   | O => []
   | S _ => (if announce then [Stderr ("< waiting for device >" ++ newline)%string] else [])
            ++ repeat (Sleep 1) k
   end).
Proof.
  revert fuel t announce; induction k as [|k IH]; intros fuel t announce Hnone Hsome Hfuel.
  - destruct fuel as [|fuel]; [lia|]. cbn [open_device_loop].
    rewrite usb_open_match. cbn [fst]. rewrite Nat.add_0_r in Hsome. rewrite Hsome.
    rewrite Nat.add_0_r. reflexivity.
  - destruct fuel as [|fuel]; [lia|]. cbn [open_device_loop].
    rewrite usb_open_match. cbn [fst].
    pose proof (Hnone O ltac:(lia)) as H0. rewrite Nat.add_0_r in H0. rewrite H0.
    rewrite (IH fuel (S t) false).
    + replace (S t + k)%nat with (t + S k)%nat by lia. f_equal.
      destruct k; cbn [repeat app]; reflexivity.
    + intros j Hj. replace (S t + j)%nat with (t + S j)%nat by lia. apply Hnone. lia.
    + replace (S t + k)%nat with (t + S k)%nat by lia. exact Hsome.
    + lia.
Qed.

(** X2. When the first poll at which an acceptable interface is
    connected is the [k]-th from now, [open_device] returns the first
    such interface of that poll after sleeping one second [k] times, and
    it writes "< waiting for device >" once, before the first sleep, and
    only if it has to wait at all.  With its static handle set it
    returns that handle at once. *)
Theorem open_device_waits (p : prog) (bus_at : nat -> list usb_ifc_info)
  (k fuel t : nat) (h : usb_ifc_info) :
  (forall j, (j < k)%nat ->
             find (fun info => match_fastboot p info =? 0) (bus_at (t + j)%nat) = None) ->
  find (fun info => match_fastboot p info =? 0) (bus_at (t + k)%nat) = Some h ->
  (k < fuel)%nat ->
  open_device p bus_at fuel None t =
  (Some (h, S (t + k)),
   match k with
   | O => []
   | S _ => Stderr ("< waiting for device >" ++ newline)%string :: repeat (Sleep 1) k
   end) /\
  forall fuel' t', open_device p bus_at fuel' (Some h) t' = (Some (h, t'), []).
Proof.
  intros Hnone Hsome Hfuel. split; [|reflexivity].
  unfold open_device. rewrite (open_device_loop_found p bus_at k fuel t true h Hnone Hsome Hfuel).
  destruct k; reflexivity.
Qed.

Lemma open_device_waits_witness :
  open_device startup late_bus 5 None 0 =
  (Some (sample_device, 3%nat),
   [Stderr ("< waiting for device >" ++ newline)%string; Sleep 1; Sleep 1]).
Proof.
  refine (proj1 (open_device_waits startup late_bus 2 5 0 sample_device _ _ _)).
  - intros j Hj. destruct j as [|[|j]]; [reflexivity | reflexivity | lia].
  - reflexivity.
  - lia.
Defined.

Lemma open_device_loop_waiting (p : prog) (bus_at : nat -> list usb_ifc_info)
  (fuel t : nat) (announce : bool) :
  (forall j, find (fun info => match_fastboot p info =? 0) (bus_at j) = None) ->
  open_device_loop p bus_at fuel t announce =
  (None,
   match fuel with
   | O => []
   | S _ => (if announce then [Stderr ("< waiting for device >" ++ newline)%string] else [])
            ++ repeat (Sleep 1) fuel
   end).
Proof.
  intros Hnone. revert t announce; induction fuel as [|fuel IH]; intros t announce;
    [reflexivity|].
  cbn [open_device_loop]. rewrite usb_open_match. cbn [fst]. rewrite Hnone, IH.
  f_equal. destruct fuel; cbn [repeat app]; reflexivity.
Qed.

(** X17. [open_device] never gives up: as long as no acceptable
    interface is connected it keeps polling, one second apart, and has
    written "< waiting for device >" exactly once however long it has
    waited. *)
Theorem open_device_never_gives_up (p : prog) (bus_at : nat -> list usb_ifc_info)
  (fuel t : nat) :
  (forall j, find (fun info => match_fastboot p info =? 0) (bus_at j) = None) ->
  open_device p bus_at (S fuel) None t =
  (None, Stderr ("< waiting for device >" ++ newline)%string :: repeat (Sleep 1) (S fuel)).
Proof.
  intros Hnone. unfold open_device.
  rewrite (open_device_loop_waiting p bus_at (S fuel) t true Hnone). reflexivity.
Qed.

Lemma open_device_never_gives_up_witness :
  open_device startup (fun _ => []) 3 None 0 =
  (None, [Stderr ("< waiting for device >" ++ newline)%string; Sleep 1; Sleep 1; Sleep 1]).
Proof.
  refine (open_device_never_gives_up startup (fun _ => []) 2 0 _).
  intros j. reflexivity.
Defined.

(** ** Resources of [load_file] *)

(** X3. [load_file] gives back what it takes: on every path the
    descriptor it opened is closed, and the buffer it allocated is freed
    unless it is the data returned. *)
Theorem load_file_releases (os : OS) (fn : string) :
  snd (load_file_resources os fn) = load_file os fn /\
  leftover [] [] (fst (load_file_resources os fn)) =
  ([], match load_file os fn with Some (_, sz) => [sz] | None => [] end).
Proof.
  unfold load_file_resources, load_file.
  set (fd := sys_open os fn). set (sz := to_int (sys_lseek_end os fd)).
  assert (Hfd : remove Z.eq_dec fd [fd] = []).
  { cbn. destruct (Z.eq_dec fd fd); [reflexivity | contradiction]. }
  assert (Hsz : remove Z.eq_dec sz [sz] = []).
  { cbn. destruct (Z.eq_dec sz sz); [reflexivity | contradiction]. }
  destruct (fd <? 0); [split; reflexivity|].
  destruct (sz <? 0); [cbn [fst snd leftover]; rewrite Hfd; split; reflexivity|].
  destruct (negb (sys_lseek_set os fd =? 0));
    [cbn [fst snd leftover]; rewrite Hfd; split; reflexivity|].
  destruct (negb (sys_malloc os sz));
    [cbn [fst snd leftover]; rewrite Hfd; split; reflexivity|].
  destruct (sys_read os fd sz) as [n data].
  destruct (negb (n =? sz)); cbn [fst snd leftover]; rewrite Hfd, ?Hsz; split; reflexivity.
Qed.

(** ** [strip] *)

Lemma append_empty_r (s : string) : (s ++ "")%string = s.
Proof. induction s as [|c s IH]; cbn; [reflexivity | rewrite IH; reflexivity]. Qed.

Lemma get_after_prefix (a s : string) (c : ascii) :
  String.get (String.length a) (a ++ String c s) = Some c.
Proof. induction a as [|d a IH]; cbn; [reflexivity | exact IH]. Qed.

Lemma substring_prefix (a s : string) :
  String.substring 0 (String.length a) (a ++ s) = a.
Proof.
  induction a as [|d a IH]; cbn; [destruct s; reflexivity | rewrite IH; reflexivity].
Qed.

Lemma length_snoc (a : string) (c : ascii) :
  String.length (a ++ String c "") = S (String.length a).
Proof. induction a as [|d a IH]; cbn; [reflexivity | rewrite IH; reflexivity]. Qed.

Lemma string_snoc (s : string) :
  s = "" \/ exists a c, s = (a ++ String c "")%string.
Proof.
  induction s as [|d s IH]; [left; reflexivity | right].
  destruct IH as [->|(a & c & ->)].
  - exists "", d. reflexivity.
  - exists (String d a), c. reflexivity.
Qed.

Lemma rstrip_snoc (a : string) (c : ascii) :
  rstrip (a ++ String c "") =
  if isspace c then rstrip a else (a ++ String c "")%string.
Proof.
  induction a as [|d a IH]; cbn [String.append rstrip].
  - destruct (isspace c); reflexivity.
  - rewrite IH. destruct (isspace c) eqn:Ec; [reflexivity|].
    destruct (a ++ String c "")%string eqn:E; [destruct a; discriminate | reflexivity].
Qed.

Lemma strip_tail_rstrip (n : nat) (s : string) :
  String.length s = n -> strip_tail n s = rstrip s.
Proof.
  revert s; induction n as [|n IH]; intros s Hn.
  - destruct s; [reflexivity | discriminate].
  - destruct (string_snoc s) as [->|(a & c & ->)]; [discriminate|].
    rewrite length_snoc in Hn. injection Hn as Hn. subst n.
    cbn [strip_tail]. rewrite get_after_prefix, substring_prefix, rstrip_snoc.
    destruct (isspace c); [apply IH; reflexivity | reflexivity].
Qed.

Lemma skip_spaces_split (s : string) :
  exists lead, s = (lead ++ skip_spaces s)%string /\ all_space lead = true /\
               match skip_spaces s with
               | String c _ => isspace c = false
               | EmptyString => True
               end.
Proof.
  induction s as [|c s IH]; [exists ""; repeat split|].
  cbn [skip_spaces]. destruct (isspace c) eqn:Ec.
  - destruct IH as (lead & Hs & Hl & Hh). exists (String c lead).
    cbn [String.append all_space]. rewrite <- Hs, Ec, Hl. repeat split. exact Hh.
  - exists "". repeat split. exact Ec.
Qed.

Lemma rstrip_split (s : string) :
  exists trail, s = (rstrip s ++ trail)%string /\ all_space trail = true /\
                match last_char (rstrip s) with
                | Some c => isspace c = false
                | None => True
                end.
Proof.
  induction s as [|c s IH]; [exists ""; repeat split|].
  destruct IH as (trail & Hs & Ht & Hl). cbn [rstrip].
  destruct (rstrip s) as [|d r] eqn:Er.
  - cbn [String.append] in Hs. subst trail.
    destruct (isspace c) eqn:Ec.
    + exists (String c s). cbn [String.append all_space]. rewrite Ec, Ht. repeat split.
    + exists s. cbn [String.append last_char]. repeat split; assumption.
  - exists trail. cbn [String.append]. rewrite Hs at 1. repeat split; assumption.
Qed.

Lemma strip_split (s : string) :
  exists lead trail,
    s = (lead ++ strip s ++ trail)%string /\
    all_space lead = true /\ all_space trail = true /\
    match strip s with String c _ => isspace c = false | EmptyString => True end /\
    match last_char (strip s) with Some c => isspace c = false | None => True end.
Proof.
  unfold strip. rewrite (strip_tail_rstrip _ _ eq_refl).
  destruct (skip_spaces_split s) as (lead & Hs & Hl & Hh).
  destruct (rstrip_split (skip_spaces s)) as (trail & Hr & Ht & Hlast).
  exists lead, trail. rewrite <- Hr. repeat split; try assumption.
  destruct (rstrip (skip_spaces s)) as [|c r] eqn:E; [exact I|].
  rewrite Hr in Hh. exact Hh.
Qed.

(** X4. [strip] cuts white space, and only white space, from both ends:
    the argument is the result between a run of white space before and
    a run of white space after, and the result neither begins nor ends
    with white space. *)
Theorem strip_both_ends (s : string) :
  exists lead trail,
    s = (lead ++ strip s ++ trail)%string /\
    all_space lead = true /\ all_space trail = true /\
    match strip s with String c _ => isspace c = false | EmptyString => True end /\
    match last_char (strip s) with Some c => isspace c = false | None => True end.
Proof. exact (strip_split s). Qed.

Lemma rstrip_fixed (s : string) :
  match last_char s with Some c => isspace c = false | None => True end ->
  rstrip s = s.
Proof.
  induction s as [|c s IH]; [reflexivity|]. cbn [last_char rstrip].
  destruct s as [|d s'].
  - intros ->. reflexivity.
  - intros H. rewrite (IH H). reflexivity.
Qed.

(** X5. [strip] leaves alone a string that neither begins nor ends with
    white space; in particular stripping twice is stripping once. *)
Theorem strip_idempotent (s : string) :
  strip (strip s) = strip s /\
  (match s with String c _ => isspace c = false | EmptyString => True end ->
   match last_char s with Some c => isspace c = false | None => True end ->
   strip s = s).
Proof.
  assert (Hfix : forall x,
             match x with String c _ => isspace c = false | EmptyString => True end ->
             match last_char x with Some c => isspace c = false | None => True end ->
             strip x = x).
  { intros x Hh Hl. unfold strip.
    assert (Hs : skip_spaces x = x).
    { destruct x as [|c x']; [reflexivity|]. cbn [skip_spaces]. rewrite Hh. reflexivity. }
    rewrite Hs, (strip_tail_rstrip _ _ eq_refl). apply rstrip_fixed. exact Hl. }
  split; [|apply Hfix].
  destruct (strip_split s) as (lead & trail & _ & _ & _ & Hh & Hl).
  apply Hfix; assumption.
Qed.

Lemma strip_idempotent_witness : strip "flash boot" = "flash boot".
Proof.
  refine (proj2 (strip_idempotent "flash boot") _ _); reflexivity.
Defined.

(** ** [do_send_signature] *)

Lemma strrchr_split (s : string) (c : ascii) (before from : string) :
  strrchr s c = Some (before, from) -> s = (before ++ from)%string.
Proof.
  revert before from; induction s as [|d s IH]; intros before from; cbn [strrchr];
    [discriminate|].
  destruct (strrchr s c) as [[b x]|].
  - intros [= <- <-]. cbn. rewrite (IH b x eq_refl). reflexivity.
  - destruct (Ascii.eqb d c); [|discriminate]. intros [= <- <-]. reflexivity.
Qed.

Lemma strrchr_img (base : string) :
  strrchr (base ++ ".img") "." = Some (base, ".img").
Proof.
  induction base as [|d base IH]; [reflexivity|].
  cbn [String.append strrchr]. rewrite IH. reflexivity.
Qed.

Lemma set_action_list_nil (p : prog) : set_action_list (action_list p ++ []) p = p.
Proof. rewrite app_nil_r. destruct p; reflexivity. Qed.

Lemma do_send_signature_img (os : OS) (base : string) (p : prog) :
  do_send_signature os (base ++ ".img") p =
  match load_file os (base ++ ".sig") with
  | Some (data, sz) =>
      Ret (base ++ ".img")%string
        (set_action_list
           (action_list p ++
            [Download "signature" data sz; Command "signature" "installing signature"]) p)
  | None => Ret (base ++ ".img")%string p
  end.
Proof.
  unfold do_send_signature. rewrite strrchr_img. cbn [strcmp Ascii.eqb Bool.eqb Z.eqb negb].
  destruct (load_file os (base ++ ".sig")) as [[data sz]|]; [|reflexivity].
  run. rewrite action_list_set, set_action_list_twice, <- app_assoc. reflexivity.
Qed.

(** X6. [do_send_signature] always returns, with the file name restored
    in its buffer.  It queues nothing unless the name ends in ".img" and
    the file of the same name with ".sig" instead loads; then it queues
    the Download of that file, whatever its size, and the Command
    "signature" after it. *)
Theorem do_send_signature_effect (os : OS) (fn : string) (p : prog) :
  exists ops,
    do_send_signature os fn p = Ret fn (set_action_list (action_list p ++ ops) p) /\
    (ops = [] \/
     exists base data sz,
       fn = (base ++ ".img")%string /\
       load_file os (base ++ ".sig") = Some (data, sz) /\
       ops = [Download "signature" data sz; Command "signature" "installing signature"]).
Proof.
  destruct (strrchr fn ".") as [[base xtn]|] eqn:Es.
  - destruct (Z.eqb_spec (strcmp xtn ".img") 0) as [E|E].
    + apply strcmp_eq in E. subst xtn. apply strrchr_split in Es. subst fn.
      rewrite do_send_signature_img.
      destruct (load_file os (base ++ ".sig")) as [[data sz]|] eqn:El.
      * eexists. split; [reflexivity|]. right. exists base, data, sz. auto.
      * exists []. rewrite set_action_list_nil. auto.
    + exists []. rewrite set_action_list_nil. split; [|auto].
      unfold do_send_signature. rewrite Es.
      destruct (Z.eqb_spec (strcmp xtn ".img") 0); [contradiction | reflexivity].
  - exists []. rewrite set_action_list_nil. split; [|auto].
    unfold do_send_signature. rewrite Es. reflexivity.
Qed.

(** X7. For a name that ends in ".img" whose ".sig" file loads,
    [do_send_signature] queues the Download and the Command for any size
    of the file: unlike the [signature] command it does not ask for 256
    bytes. *)
Theorem do_send_signature_any_size (os : OS) (base : string) (p : prog)
  (data : bytes) (sz : Z) :
  load_file os (base ++ ".sig") = Some (data, sz) ->
  do_send_signature os (base ++ ".img") p =
  Ret (base ++ ".img")%string
    (set_action_list
       (action_list p ++
        [Download "signature" data sz; Command "signature" "installing signature"]) p).
Proof. intros H. rewrite do_send_signature_img, H. reflexivity. Qed.

Lemma do_send_signature_any_size_witness :
  do_send_signature (Sample.sized 512 (Sample.only "boot.sig") Sample.full_zip) "boot.img"
    (initial (Sample.sized 512 (Sample.only "boot.sig") Sample.full_zip)) =
  Ret "boot.img"
    (set_action_list
       ([] ++ [Download "signature" [] 512; Command "signature" "installing signature"])
       (initial (Sample.sized 512 (Sample.only "boot.sig") Sample.full_zip))).
Proof.
  refine (do_send_signature_any_size
            (Sample.sized 512 (Sample.only "boot.sig") Sample.full_zip) "boot" _ [] 512 _).
  reflexivity.
Defined.

(** ** [do_flashall] before the plan *)

(** X8. [do_flashall] queues the four informational operations before it
    loads the package: when the package does not load it dies with
    exactly those four operations appended to the queue.  When the
    package loads but does not open as an archive, the call of [die]
    lacks the argument of its format and nothing is defined from there
    on. *)
Theorem do_flashall_dies_after_info (os : OS) (fn : string) (p : prog) :
  let stopped :=
    set_action_list
      (action_list p ++
       [Notice "--------------------------------------------";
        Display "preos" "Current Pre-OS Version ";
        Display "ifwi" "Current IFWI Version   ";
        Notice "--------------------------------------------"]) p in
  match load_file os fn with
  | None =>
      do_flashall os fn p =
      Die "failed to load '%s': %s" [fn; sys_strerror os fn] stopped
  | Some (zdata, zsize) =>
      init_zipfile os zdata zsize = None -> do_flashall os fn p = Undef
  end.
Proof.
  intros stopped. rewrite do_flashall_blocks, (bind_ret _ _ _ _ _ (queue_info_dump_run p)).
  destruct (load_file os fn) as [[zdata zsize]|]; [|reflexivity].
  intros ->. reflexivity.
Qed.

Lemma do_flashall_dies_after_info_witness :
  do_flashall (Sample.system Sample.no_files Sample.full_zip) "pkg.zip"
    (initial (Sample.system Sample.no_files Sample.full_zip)) =
  Die "failed to load '%s': %s" ["pkg.zip"; "No such file or directory"]
    (set_action_list
       ([] ++
        [Notice "--------------------------------------------";
         Display "preos" "Current Pre-OS Version ";
         Display "ifwi" "Current IFWI Version   ";
         Notice "--------------------------------------------"])
       (initial (Sample.system Sample.no_files Sample.full_zip))).
Proof.
  exact (do_flashall_dies_after_info (Sample.system Sample.no_files Sample.full_zip)
           "pkg.zip" (initial (Sample.system Sample.no_files Sample.full_zip))).
Defined.

(** ** The matcher's filters *)

(** X9. The filters of [match_fastboot] only ever narrow or widen in one
    direction: an interface accepted with a serial filter is accepted
    without one, and an interface accepted without a vendor override is
    accepted with any override. *)
Theorem match_fastboot_monotone (p : prog) (info : usb_ifc_info) :
  match_fastboot p info = 0 ->
  match_fastboot (set_serial None p) info = 0 /\
  (vendor_id p = 0 -> forall v, match_fastboot (set_vendor_id v p) info = 0).
Proof.
  unfold match_fastboot.
  cbn [vendor_id serial set_serial set_vendor_id].
  rewrite <- !andb_assoc.
  match goal with
  | |- context [negb (negb (vendor_id p =? 0) && (dev_vendor info =? vendor_id p)) && ?B] =>
      set (known := B)
  end.
  intros H. split.
  - destruct (negb (negb (vendor_id p =? 0) && (dev_vendor info =? vendor_id p)) && known);
      [discriminate|].
    destruct (negb (ifc_class info =? 255)); [discriminate|].
    destruct (negb (ifc_subclass info =? 66)); [discriminate|].
    destruct (negb (ifc_protocol info =? 3)); [discriminate|]. reflexivity.
  - intros Hv v. rewrite Hv in H. cbn [Z.eqb negb andb] in H.
    rewrite <- !andb_assoc. fold known.
    destruct known; [discriminate|]. rewrite andb_false_r. exact H.
Qed.

Lemma match_fastboot_monotone_witness :
  match_fastboot
    (set_serial None (set_serial (Some "0123") (initial (Sample.system Sample.no_files []))))
    {| dev_vendor := 0x18d1; ifc_class := 0xff; ifc_subclass := 0x42; ifc_protocol := 0x03;
       writable := true; serial_number := "0123" |} = 0.
Proof.
  refine (proj1 (match_fastboot_monotone
                   (set_serial (Some "0123") (initial (Sample.system Sample.no_files [])))
                   _ _)).
  reflexivity.
Defined.

(** ** Usage errors *)

(** X10. An iteration of the command loop ends in the usage text and
    exit status 1 exactly when the leading token is not a command of the
    loop or too few tokens follow it; the loop then stops there,
    whatever had been queued. *)
Theorem usage_iff_not_a_command (os : OS) (argv : list string) (p : prog) :
  argv <> [] ->
  (forall st, step os argv p = Usage st <-> (st = 1 /\ Table.parse_head argv = None)) /\
  (Table.parse_head argv = None ->
   forall fuel, (command_loop os (S fuel) argv ;; queue_reboot) p = Usage 1).
Proof.
  intros Hne. pose proof (step_sim os argv p Hne) as H.
  assert (Hu : Table.parse_head argv = None -> step os argv p = Usage 1).
  { intros Hn. inversion H as [ Hh Er | c r ops Hh He Ho Er | c r r' Hh He Hf | Hh Er
                              | ws Hh Hw Hl Er ]; try congruence. }
  split.
  - intros st. split.
    + intros E. rewrite E in H.
      inversion H as [ Hh | | c r r' Hh He Hf | | ]; subst; [auto | contradiction].
    + intros [-> Hn]. exact (Hu Hn).
  - intros Hn fuel. destruct argv as [|t rest]; [contradiction|].
    apply bind_usage. rewrite command_loop_step. apply bind_usage. exact (Hu Hn).
Qed.

Lemma usage_iff_not_a_command_witness :
  (command_loop (Sample.system Sample.no_files Sample.full_zip) 1 ["flash"; "boot"] ;;
   queue_reboot)
    (initial (Sample.system Sample.no_files Sample.full_zip)) = Usage 1.
Proof.
  refine (proj2 (usage_iff_not_a_command (Sample.system Sample.no_files Sample.full_zip)
                   ["flash"; "boot"] _ _) _ O).
  - discriminate.
  - reflexivity.
Defined.

(** ** The queue only grows *)

Lemma extends_refl (p : prog) : extends p p.
Proof. exists []. rewrite app_nil_r. reflexivity. Qed.

Lemma extends_trans (p q r : prog) : extends p q -> extends q r -> extends p r.
Proof.
  intros [a Ha] [b Hb]. exists (a ++ b). rewrite Hb, Ha, app_assoc. reflexivity.
Qed.

Lemma append_only_ret {A} (a : A) : append_only (ret a).
Proof. intros p. apply extends_refl. Qed.

Lemma append_only_die {A} fmt args : append_only (@die A fmt args).
Proof. intros p. apply extends_refl. Qed.

Lemma append_only_undefined {A} : append_only (@undefined A).
Proof. intros p. exact I. Qed.

Lemma append_only_usage {A} st : append_only (fun _ : prog => @Usage A st).
Proof. intros p. exact I. Qed.

Lemma append_only_require n argv : append_only (require n argv).
Proof. intros p. unfold require. destruct (argc argv <? n); [exact I | apply extends_refl]. Qed.

Lemma append_only_modify (f : prog -> prog) :
  (forall p, extends p (f p)) -> append_only (modify f).
Proof. intros H p. apply H. Qed.

Lemma append_only_bind {A B} (m : M A) (k : A -> M B) :
  append_only m -> (forall a, append_only (k a)) -> append_only (bind m k).
Proof.
  intros Hm Hk p. unfold bind. specialize (Hm p).
  destruct (m p) as [a p1| |fmt args p1| |]; try exact I; [|exact Hm].
  specialize (Hk a p1).
  destruct (k a p1) as [b p2| |fmt args p2| |]; try exact I;
    exact (extends_trans _ _ _ Hm Hk).
Qed.

Lemma append_only_queue_action (a : action) : append_only (queue_action a).
Proof. apply append_only_modify. intros p. exists [a]. reflexivity. Qed.

Ltac append_only_step :=
  first
    [ apply append_only_ret
    | apply append_only_die
    | apply append_only_undefined
    | apply append_only_usage
    | apply append_only_require
    | apply append_only_queue_action
    | apply append_only_modify; intros ?; exists []; rewrite app_nil_r; reflexivity
    | apply append_only_bind; [|intros ?] ].

Lemma append_only_do_flashall (os : OS) (fn : string) : append_only (do_flashall os fn).
Proof.
  unfold do_flashall, queue_info_dump, flash_entry, fb_queue_notice, fb_queue_display,
    fb_queue_flash.
  repeat first
    [ append_only_step
    | match goal with
      | |- append_only (match ?x with _ => _ end) => destruct x
      end ].
Qed.

Lemma append_only_step_of_loop (os : OS) (argv : list string) : append_only (step os argv).
Proof.
  unfold step, do_oem_command, fb_queue_display, fb_queue_erase, fb_queue_download,
    fb_queue_command, fb_queue_flash.
  repeat first
    [ apply append_only_do_flashall
    | append_only_step
    | match goal with
      | |- append_only (if ?c then _ else _) => destruct c
      | |- append_only (match ?x with _ => _ end) => destruct x
      end ].
Qed.

Lemma append_only_command_loop (os : OS) (fuel : nat) (argv : list string) :
  append_only (command_loop os fuel argv).
Proof.
  revert argv; induction fuel as [|fuel IH]; intros [|a argv]; cbn [command_loop];
    try apply append_only_ret.
  - intros p. exact I.
  - apply append_only_bind; [apply append_only_step_of_loop | intros argv'; apply IH].
Qed.

Lemma append_only_queue_reboot : append_only queue_reboot.
Proof.
  intros p. unfold queue_reboot.
  destruct (wants_reboot p); [exists [Reboot]; reflexivity|].
  destruct (wants_reboot_bootloader p); [eexists; reflexivity | apply extends_refl].
Qed.

(** X11. Nothing that [main] does between reading its first command and
    opening the device takes an operation out of the queue or changes
    one: from any state of the program, whether the commands all succeed
    or one of them is fatal, the queue left behind is the queue found
    with operations added at its end. *)
Theorem queue_only_grows (os : OS) (fuel : nat) (argv : list string) (p : prog) :
  match (command_loop os fuel argv ;; queue_reboot) p with
  | Ret _ p' | Die _ _ p' => exists ops, action_list p' = action_list p ++ ops
  | _ => True
  end.
Proof.
  exact (append_only_bind _ _ (append_only_command_loop os fuel argv)
           (fun _ => append_only_queue_reboot) p).
Qed.

(** ** What the loop leaves in the program variables *)

Lemma load_file_size (os : OS) (fn : string) (data : bytes) (sz : Z) :
  load_file os fn = Some (data, sz) -> 0 <= sz.
Proof.
  unfold load_file.
  set (fd := sys_open os fn). set (n := to_int (sys_lseek_end os fd)).
  destruct (fd <? 0); [discriminate|].
  destruct (Z.ltb_spec n 0); [discriminate|].
  destruct (negb (sys_lseek_set os fd =? 0)); [discriminate|].
  destruct (negb (sys_malloc os n)); [discriminate|].
  destruct (sys_read os fd n) as [k d].
  destruct (negb (k =? n)); [discriminate|].
  intros [= _ <-]. assumption.
Qed.

Lemma unzip_file_size (os : OS) (zip : zipfile) (name : string) (data : bytes) (sz : Z) :
  unzip_file os zip name = Unzipped data sz -> 0 <= sz <= UINT_MAX.
Proof.
  unfold unzip_file. destruct (lookup_zipentry zip name) as [entry|]; [|discriminate].
  destruct (datasz_of (get_zipentry_size entry mod (UINT_MAX + 1))) as [c|]; [|discriminate].
  destruct (negb (sys_malloc os c)); [discriminate|].
  destruct (decompress_zipentry entry c); [|discriminate].
  intros [= _ <-].
  pose proof (Z.mod_pos_bound (get_zipentry_size entry) (UINT_MAX + 1) eq_refl).
  unfold UINT_MAX in *. change (4294967295 + 1) with 4294967296 in *. lia.
Qed.

Lemma plan_flashes_well_formed (os : OS) (zip : zipfile) (m : list (string * string))
  (ops : list action) :
  Table.plan_flashes os zip m = Some ops -> Forall well_formed_action ops.
Proof.
  revert ops; induction m as [|[name ptn] m IH]; intros ops; cbn [Table.plan_flashes].
  - intros [= <-]. constructor.
  - unfold Table.extract_entry.
    destruct (unzip_file os zip name) as [data sz| |] eqn:Eu; try discriminate.
    destruct (Table.plan_flashes os zip m) as [ops'|]; [|discriminate].
    intros [= <-]. constructor; [|apply IH; reflexivity].
    cbn. apply unzip_file_size in Eu. lia.
Qed.

Lemma effect_well_formed (os : OS) (c : Table.cmd) (ops : list action) :
  run_effect os c = Some ops -> Table.oem_ok c -> Forall well_formed_action ops.
Proof.
  destruct c; cbn [run_effect Table.effect Table.oem_ok].
  - intros [= <-] _. constructor.
  - destruct (strtoul_ok v); intros [= <-] _. constructor.
  - intros [= <-] _. repeat constructor.
  - intros [= <-] _. repeat constructor.
  - destruct (load_file os file) as [[data sz]|]; [|discriminate].
    destruct (Z.eqb_spec sz 256) as [->|]; [|discriminate].
    intros [= <-] _. repeat constructor. cbn. lia.
  - intros [= <-] _. constructor.
  - intros [= <-] _. constructor.
  - intros [= <-] _. repeat constructor. cbn. lia.
  - destruct (load_file os file) as [[data sz]|] eqn:El; [|discriminate].
    intros [= <-] _. repeat constructor. cbn. exact (load_file_size os _ _ _ El).
  - unfold run_package.
    destruct (load_file os package) as [[zdata zsize]|]; [|discriminate].
    destruct (init_zipfile os zdata zsize) as [zip|]; [|discriminate].
    destruct (Table.plan_flashes os zip Table.manifest) as [fl|] eqn:E; [|discriminate].
    intros [= <-] _. cbn [option_map Table.info_dump app].
    repeat (constructor; [exact I|]).
    exact (plan_flashes_well_formed os zip _ _ E).
  - intros [= <-] [_ Hlen]. repeat constructor. exact Hlen.
Qed.

Lemma serial_after_cons (c : Table.cmd) (cs : list Table.cmd) (s0 : option string) :
  serial_after (c :: cs) s0 =
  serial_after cs (match c with Table.OptSerial a => Some a | _ => s0 end).
Proof. reflexivity. Qed.

Lemma vendor_after_cons (c : Table.cmd) (cs : list Table.cmd) (v0 : Z) :
  vendor_after (c :: cs) v0 =
  vendor_after cs (match c with
                   | Table.OptVendor a => fst (strtoul a) mod 65536
                   | _ => v0
                   end).
Proof. reflexivity. Qed.

Lemma vendor_after_range (cs : list Table.cmd) (v0 : Z) :
  0 <= v0 < 65536 -> 0 <= vendor_after cs v0 < 65536.
Proof.
  revert v0; induction cs as [|c cs IH]; intros v0 Hv; [exact Hv|].
  rewrite vendor_after_cons. apply IH.
  destruct c; try exact Hv. apply Z.mod_pos_bound. reflexivity.
Qed.

Lemma loop_ret_track (os : OS) (fuel : nat) (toks : list string) (p p' : prog) :
  command_loop os fuel toks p = Ret tt p' ->
  exists cmds ops,
    Table.parse toks = Some cmds /\
    action_list p' = action_list p ++ ops /\
    Forall well_formed_action ops /\
    serial p' = serial_after cmds (serial p) /\
    vendor_id p' = vendor_after cmds (vendor_id p).
Proof.
  revert toks p; induction fuel as [|fuel IH]; intros toks p Hrun.
  - destruct toks; [|discriminate]. injection Hrun as <-.
    exists [], []. rewrite app_nil_r. repeat split. constructor.
  - destruct toks as [|t rest].
    { injection Hrun as <-. exists [], []. rewrite app_nil_r. repeat split. constructor. }
    assert (Hne : t :: rest <> []) by discriminate.
    rewrite command_loop_step in Hrun. unfold bind in Hrun.
    destruct (step os (t :: rest) p) as [rest' p1| | | |] eqn:E; try discriminate.
    destruct (step_ret_inv os _ _ _ _ Hne E) as (c & Hh & Hc).
    destruct (IH rest' p1 Hrun) as (cs & ops' & Hp & Hq & Hw & Hs & Hv).
    assert (Hparse : Table.parse (t :: rest) = Some (c :: cs)).
    { rewrite parse_cons, Hh, Hp. reflexivity. }
    destruct Hc as [(ops & He & Hok & ->)|[-> ->]].
    + exists (c :: cs), (ops ++ ops'). split; [exact Hparse|].
      rewrite Hq, Hs, Hv, serial_after_cons, vendor_after_cons.
      cbn [after action_list serial vendor_id]. rewrite <- app_assoc.
      repeat split. apply Forall_app. split; [|exact Hw].
      exact (effect_well_formed os c ops He Hok).
    + exists (Table.Oem [] :: cs), ops'. split; [exact Hparse|].
      rewrite Hq, Hs, Hv. repeat split. exact Hw.
Qed.

(** X12. Every operation in a queue that [main] hands to the engine is
    well formed: a Download is the signature with exactly 256 bytes, the
    length of a Flash is not negative, and the text of a Command is at
    most 255 characters long. *)
Theorem queue_well_formed (os : OS) (argv : list string) (p : prog) :
  main os argv = RunQueue p -> Forall well_formed_action (action_list p).
Proof.
  intros Hmain. destruct (main_run_inv os argv p Hmain) as (a0 & toks & -> & Hrun).
  unfold bind in Hrun.
  destruct (command_loop os (List.length toks) toks (initial os)) as [[] p1| | | |] eqn:El;
    try discriminate.
  destruct (loop_ret_track os _ _ _ _ El) as (cmds & ops & _ & Hq & Hw & _).
  destruct (queue_reboot_run os p1) as (p2 & Hrun2 & Hq2 & _).
  rewrite Hrun2 in Hrun. injection Hrun as <-.
  rewrite Hq2, Hq. cbn [initial action_list app].
  apply Forall_app. split; [exact Hw|].
  unfold Table.trailing.
  destruct (wants_reboot p1); [repeat constructor|].
  destruct (wants_reboot_bootloader p1); repeat constructor. cbn. lia.
Qed.

Lemma queue_well_formed_witness :
  Forall well_formed_action
    [Display "version" "version"; Command "oem unlock now" ""].
Proof.
  exact (queue_well_formed (Sample.system Sample.no_files Sample.full_zip)
           ["fastboot"; "getvar"; "version"; "oem"; "unlock"; "now"]
           (set_action_list [Display "version" "version"; Command "oem unlock now" ""]
              (initial (Sample.system Sample.no_files Sample.full_zip)))
           eq_refl).
Defined.

(** X13. The filter [main] goes to discovery with is fixed by the
    options alone: the serial is the argument of the last [-s], or the
    value of ANDROID_SERIAL when there is none; the vendor id is the
    value of the last [-i], or 0, and always fits 16 bits. *)
Theorem filter_from_options (os : OS) (argv : list string) (p : prog) :
  main os argv = RunQueue p ->
  exists cmds,
    Table.parse (tl argv) = Some cmds /\
    serial p = serial_after cmds (sys_getenv os "ANDROID_SERIAL") /\
    vendor_id p = vendor_after cmds 0 /\
    0 <= vendor_id p < 65536.
Proof.
  intros Hmain. destruct (main_run_inv os argv p Hmain) as (a0 & toks & -> & Hrun).
  unfold bind in Hrun.
  destruct (command_loop os (List.length toks) toks (initial os)) as [[] p1| | | |] eqn:El;
    try discriminate.
  destruct (loop_ret_track os _ _ _ _ El) as (cmds & ops & Hp & _ & _ & Hs & Hv).
  destruct (queue_reboot_run os p1) as (p2 & Hrun2 & _ & _ & _ & Hs2 & Hv2).
  rewrite Hrun2 in Hrun. injection Hrun as <-.
  exists cmds. split; [exact Hp|]. rewrite Hs2, Hv2, Hs, Hv. cbn [initial serial vendor_id].
  repeat split; apply vendor_after_range; lia.
Qed.

Lemma filter_from_options_witness :
  exists cmds,
    Table.parse ["-s"; "aaa"; "-i"; "0x18d1"; "getvar"; "x"; "-s"; "bbb"] = Some cmds /\
    Some "bbb" = serial_after cmds None /\
    6353 = vendor_after cmds 0 /\
    0 <= 6353 < 65536.
Proof.
  exact (filter_from_options (Sample.system Sample.no_files Sample.full_zip)
           ["fastboot"; "-s"; "aaa"; "-i"; "0x18d1"; "getvar"; "x"; "-s"; "bbb"]
           {| serial := Some "bbb"; vendor_id := 6353;
              action_list := [Display "x" "x"];
              wants_reboot := false; wants_reboot_bootloader := false |}
           eq_refl).
Defined.

(** ** Splitting the command line *)

Lemma step_shorter (os : OS) (argv rest : list string) (p p' : prog) :
  argv <> [] -> step os argv p = Ret rest p' ->
  (List.length rest < List.length argv)%nat.
Proof.
  intros Hne E. destruct (step_ret_inv os _ _ _ _ Hne E) as (c & Hh & _).
  exact (parse_head_shorter _ _ _ Hh).
Qed.

Lemma loop_fuel_irrelevant (os : OS) (f1 f2 : nat) (argv : list string) (p : prog) :
  (List.length argv <= f1)%nat -> (List.length argv <= f2)%nat ->
  command_loop os f1 argv p = command_loop os f2 argv p.
Proof.
  revert f2 argv p; induction f1 as [|f1 IH]; intros f2 argv p H1 H2.
  - destruct argv; [destruct f2; reflexivity | cbn in H1; lia].
  - destruct argv as [|a argv]; [destruct f2; reflexivity|].
    destruct f2 as [|f2]; [cbn in H2; lia|].
    rewrite !command_loop_step. unfold bind.
    destruct (step os (a :: argv) p) as [rest p'| | | |] eqn:E; try reflexivity.
    assert (Hne : a :: argv <> []) by discriminate.
    pose proof (step_shorter os _ _ _ _ Hne E) as Hs.
    cbn [List.length] in *. apply IH; lia.
Qed.

Ltac split_step lem :=
  cbn [app]; rewrite !lem; reflexivity.

Lemma step_app (os : OS) (toks1 toks2 rest : list string) (c : Table.cmd) (p : prog) :
  Table.parse_head toks1 = Some (c, rest) ->
  is_oem c = false ->
  step os (toks1 ++ toks2) p =
  match step os toks1 p with
  | Ret r p' => Ret (r ++ toks2) p'
  | Usage st => Usage st
  | Die fmt args p' => Die fmt args p'
  | Undef => Undef
  | OutOfFuel => OutOfFuel
  end.
Proof.
  destruct toks1 as [|t r]; [discriminate|]. unfold Table.parse_head.
  destruct (String.eqb_spec t "-s") as [->|_].
  { destruct r as [|a r]; [discriminate|]. intros _ _. split_step step_serial. }
  destruct (String.eqb_spec t "-i") as [->|_].
  { destruct r as [|a r]; [discriminate|]. intros _ _. cbn [app]. rewrite !step_vendor.
    destruct (strtoul_ok a); reflexivity. }
  destruct (String.eqb_spec t "getvar") as [->|_].
  { destruct r as [|a r]; [discriminate|]. intros _ _. split_step step_getvar. }
  destruct (String.eqb_spec t "erase") as [->|_].
  { destruct r as [|a r]; [discriminate|]. intros _ _. split_step step_erase. }
  destruct (String.eqb_spec t "signature") as [->|_].
  { destruct r as [|a r]; [discriminate|]. intros _ _. cbn [app]. rewrite !step_signature.
    destruct (load_file os a) as [[data sz]|]; [|reflexivity].
    destruct (sz =? 256); reflexivity. }
  destruct (String.eqb_spec t "reboot") as [->|_].
  { intros _ _. split_step step_reboot. }
  destruct (String.eqb_spec t "reboot-bootloader") as [->|_].
  { intros _ _. split_step step_reboot_bootloader. }
  destruct (String.eqb_spec t "continue") as [->|_].
  { intros _ _. split_step step_continue. }
  destruct (String.eqb_spec t "flash") as [->|_].
  { destruct r as [|a [|b r]]; try discriminate. intros _ _. cbn [app]. rewrite !step_flash.
    destruct (load_file os b) as [[data sz]|]; reflexivity. }
  destruct (String.eqb_spec t "flashall") as [->|_].
  { destruct r as [|a r]; [discriminate|]. intros _ _. cbn [app]. rewrite !step_flashall.
    unfold bind. destruct (do_flashall os a p) as [[] q| | | |]; reflexivity. }
  destruct (String.eqb_spec t "oem") as [->|_].
  { intros [= <- _] Ho. discriminate. }
  discriminate.
Qed.

(** X14. Commands are handled one after the other with no look-ahead
    beyond their own arguments: for tokens that form complete commands,
    none of them [oem], running the loop over them followed by further
    tokens is running it over them and then, from the state reached,
    over the further tokens. *)
Theorem command_loop_app (os : OS) (toks1 toks2 : list string) (cmds : list Table.cmd)
  (p : prog) :
  Table.parse toks1 = Some cmds ->
  forallb (fun c => negb (is_oem c)) cmds = true ->
  command_loop os (List.length (toks1 ++ toks2)) (toks1 ++ toks2) p =
  (command_loop os (List.length toks1) toks1 ;;
   command_loop os (List.length toks2) toks2) p.
Proof.
  remember (List.length toks1) as n eqn:En.
  revert toks1 cmds p En; induction n as [n IH] using lt_wf_ind.
  intros toks1 cmds p En Hparse Hoem.
  destruct toks1 as [|t r].
  { subst n. reflexivity. }
  rewrite parse_cons in Hparse.
  destruct (Table.parse_head (t :: r)) as [[c rest]|] eqn:Eh; [|discriminate].
  destruct (Table.parse rest) as [cs|] eqn:Ep; [|discriminate].
  injection Hparse as <-. cbn [forallb] in Hoem. apply andb_true_iff in Hoem.
  destruct Hoem as [Hc Hcs]. apply negb_true_iff in Hc.
  pose proof (parse_head_shorter _ _ _ Eh) as Hs.
  cbn [List.length] in En, Hs. subst n.
  cbn [app List.length]. unfold bind. rewrite !command_loop_step. unfold bind.
  change (t :: r ++ toks2) with ((t :: r) ++ toks2).
  rewrite (step_app os (t :: r) toks2 rest c p Eh Hc).
  destruct (step os (t :: r) p) as [rest' p'| | | |] eqn:E; try reflexivity.
  assert (Hne : t :: r <> []) by discriminate.
  destruct (step_ret_inv os _ _ _ _ Hne E) as (c' & Hh' & _).
  rewrite Eh in Hh'. injection Hh' as _ <-.
  rewrite (loop_fuel_irrelevant os (List.length (r ++ toks2)) (List.length (rest ++ toks2)))
    by (rewrite !length_app; lia).
  rewrite (IH (List.length rest) ltac:(lia) rest cs p' eq_refl Ep Hcs).
  unfold bind.
  rewrite (loop_fuel_irrelevant os (List.length r) (List.length rest)) by lia.
  reflexivity.
Qed.

Lemma command_loop_app_witness :
  command_loop (Sample.system Sample.no_files Sample.full_zip)
    (List.length (["getvar"; "x"; "reboot"] ++ ["erase"; "cache"]))
    (["getvar"; "x"; "reboot"] ++ ["erase"; "cache"])
    (initial (Sample.system Sample.no_files Sample.full_zip)) =
  (command_loop (Sample.system Sample.no_files Sample.full_zip)
     (List.length ["getvar"; "x"; "reboot"]) ["getvar"; "x"; "reboot"] ;;
   command_loop (Sample.system Sample.no_files Sample.full_zip)
     (List.length ["erase"; "cache"]) ["erase"; "cache"])
    (initial (Sample.system Sample.no_files Sample.full_zip)).
Proof.
  refine (command_loop_app (Sample.system Sample.no_files Sample.full_zip)
            ["getvar"; "x"; "reboot"] ["erase"; "cache"]
            [Table.Getvar "x"; Table.RebootCmd] _ _ _).
  - reflexivity.
  - reflexivity.
Defined.

(** ** Entries too large for the capacity *)

Lemma scaled_truncate (p : positive) :
  Zpos p < 4294967296 ->
  exists v,
    Double.truncate (Double.mul (Double.of_unsigned (Zpos p)) Double.c_1_001) = Some v /\
    Zpos p * 4508103226997866 / 2 ^ 52 <= v <= Zpos p * 4508103226997866 / 2 ^ 52 + 1.
Proof.
  intros Hp.
  pose proof (digits_bounds p) as Hb. set (d := Zpos (digits2_pos p)) in *.
  assert (Hd : 1 <= d <= 32).
  { split; [unfold d; lia|].
    destruct (Z.leb_spec d 32) as [|H]; [assumption|].
    assert (2 ^ 32 <= 2 ^ (d - 1)) by (apply Z.pow_le_mono_r; lia).
    change (2 ^ 32) with 4294967296 in *. lia. }
  assert (Hd53 : Zpos (digits2_pos p) <= 53) by (fold d; lia).
  destruct (of_unsigned_pos p Hd53) as (mz & Hof & Hmz). fold d in Hof, Hmz.
  unfold Double.mul, Double.c_1_001, Double.prec, Double.emax. rewrite Hof.
  cbn [SFmul xorb].
  set (mc := 4508103226997866%positive).
  pose proof (pow2_pos (53 - d) ltac:(lia)) as Hs.
  assert (HM : Zpos (mz * mc) = Zpos p * Zpos mc * 2 ^ (53 - d)).
  { rewrite Pos2Z.inj_mul, Hmz. ring. }
  assert (Hmzb : 2 ^ 52 <= Zpos mz < 2 ^ 53).
  { rewrite Hmz.
    replace (2 ^ 52) with (2 ^ (d - 1) * 2 ^ (53 - d))
      by (rewrite <- Z.pow_add_r by lia; f_equal; lia).
    replace (2 ^ 53) with (2 ^ d * 2 ^ (53 - d))
      by (rewrite <- Z.pow_add_r by lia; f_equal; lia).
    nia. }
  change (2 ^ 52) with 4503599627370496 in Hmzb.
  change (2 ^ 53) with 9007199254740992 in Hmzb.
  pose proof (digits_bounds (mz * mc)) as HD. set (D := Zpos (digits2_pos (mz * mc))) in *.
  assert (HDr : 105 <= D <= 106).
  { assert (H1 : 2 ^ 104 <= Zpos (mz * mc) < 2 ^ 106).
    { rewrite Pos2Z.inj_mul. unfold mc.
      change (2 ^ 104) with (4503599627370496 * 4503599627370496).
      change (2 ^ 106) with (9007199254740992 * 9007199254740992). nia. }
    split.
    - destruct (Z.leb_spec 105 D) as [|H]; [assumption|].
      assert (2 ^ D <= 2 ^ 104) by (apply Z.pow_le_mono_r; lia). lia.
    - destruct (Z.leb_spec D 106) as [|H]; [assumption|].
      assert (2 ^ 106 <= 2 ^ (D - 1)) by (apply Z.pow_le_mono_r; lia). lia. }
  assert (Hn : 1 <= D - 53) by lia.
  assert (HDd : Zpos (digits2_pos (mz * mc)) = 53 + (D - 53)) by (fold D; lia).
  assert (He : -1074 <= d - 53 + -52 + (D - 53) <= -1) by lia.
  destruct (round_truncate (mz * mc) (d - 53 + -52) (D - 53) Hn HDd He) as (m2 & Hm2 & Ht).
  rewrite Ht.
  replace (- (d - 53 + -52 + (D - 53))) with (158 - d - D) by lia.
  set (t := 158 - d - D) in *.
  pose proof (pow2_pos t ltac:(unfold t; lia)) as Hpt.
  pose proof (pow2_pos (D - 53) ltac:(lia)) as Hpn.
  set (q := Zpos (mz * mc) / 2 ^ (D - 53)) in *.
  assert (Hq : q / 2 ^ t = Zpos p * Zpos mc / 2 ^ 52).
  { unfold q. rewrite Z.div_div by lia.
    rewrite <- Z.pow_add_r by (unfold t; lia).
    replace (D - 53 + t) with (52 + (53 - d)) by (unfold t; lia).
    rewrite HM, Z.pow_add_r by lia.
    rewrite Z.div_mul_cancel_r by lia. reflexivity. }
  exists (m2 / 2 ^ t). split; [reflexivity|]. fold mc. rewrite <- Hq. split.
  - apply Z.div_le_mono; lia.
  - transitivity ((q + 1 * 2 ^ t) / 2 ^ t).
    + apply Z.div_le_mono; lia.
    + rewrite Z.div_add by lia. lia.
Qed.

Lemma datasz_oversized (sz : Z) :
  4290676620 <= sz <= UINT_MAX -> datasz_of sz = None.
Proof.
  unfold UINT_MAX. intros Hsz. destruct sz as [|p|p]; try lia.
  destruct (scaled_truncate p ltac:(lia)) as (v & Hv & Hlo & _).
  unfold datasz_of, Double.to_unsigned. rewrite Hv.
  assert (4294967296 <= Zpos p * 4508103226997866 / 2 ^ 52).
  { apply Z.div_le_lower_bound; [reflexivity|].
    change (2 ^ 52) with 4503599627370496. lia. }
  unfold UINT_MAX. destruct (Z.leb_spec 0 v); [|lia].
  destruct (Z.leb_spec v 4294967295); [lia | reflexivity].
Qed.

(** X15. For an entry that [unzip_file] finds whose nominal size is
    4290676620 bytes or more, the size scaled by 1.001 does not fit an
    unsigned: the capacity, and with it the result of [unzip_file], is
    not defined. *)
Theorem unzip_file_oversized (os : OS) (zip : zipfile) (name : string) (entry : zipentry) :
  lookup_zipentry zip name = Some entry ->
  4290676620 <= get_zipentry_size entry mod (UINT_MAX + 1) ->
  unzip_file os zip name = UnzipUndefined.
Proof.
  intros Hl Hsz. unfold unzip_file. rewrite Hl.
  rewrite datasz_oversized; [reflexivity|].
  pose proof (Z.mod_pos_bound (get_zipentry_size entry) (UINT_MAX + 1) eq_refl).
  unfold UINT_MAX in *. change (4294967295 + 1) with 4294967296 in *. lia.
Qed.

Lemma unzip_file_oversized_witness :
  unzip_file (Sample.system Sample.no_files [huge_entry]) [huge_entry]
    "system.img" = UnzipUndefined.
Proof.
  refine (unzip_file_oversized (Sample.system Sample.no_files [huge_entry])
            [huge_entry] "system.img" huge_entry _ _).
  - reflexivity.
  - vm_compute. discriminate.
Defined.

(** ** The [devices] command *)

Lemma match_fastboot_startup (info : usb_ifc_info) :
  (match_fastboot startup info =? 0) = known_fastboot info.
Proof.
  unfold match_fastboot, known_fastboot, known_vendors, startup.
  cbn [vendor_id serial existsb Z.eqb negb andb].
  rewrite <- !andb_assoc, !orb_false_r.
  repeat match goal with
         | |- context [dev_vendor info =? ?k] =>
             destruct (dev_vendor info =? k); cbn [negb andb orb];
             [destruct (ifc_class info =? 255); cbn [negb andb]; [|reflexivity];
              destruct (ifc_subclass info =? 66); cbn [negb andb]; [|reflexivity];
              destruct (ifc_protocol info =? 3); reflexivity|]
         end.
  reflexivity.
Qed.

Lemma list_devices_startup (bus : list usb_ifc_info) :
  list_devices startup bus =
  (None,
   map (fun info => Stdout (device_label info ++ tab ++ "fastboot" ++ newline)%string)
       (filter known_fastboot bus)).
Proof.
  unfold list_devices.
  induction bus as [|info bus IH]; cbn [usb_open filter map]; [reflexivity|].
  rewrite <- match_fastboot_startup.
  unfold list_devices_callback at 1, device_label.
  destruct (match_fastboot startup info =? 0); cbn [Z.eqb]; rewrite IH; [|reflexivity].
  cbn [map app]. f_equal. f_equal. f_equal.
  destruct (writable info); cbn [negb]; [|reflexivity].
  destruct (serial_number info); reflexivity.
Qed.

(** X16. [main] carries out a leading [devices] command before it reads
    ANDROID_SERIAL and before it looks at any option: whatever the
    environment holds and whatever tokens follow, it prints a line for
    every connected interface of a known vendor with the fastboot class,
    subclass and protocol, whatever its serial number, prints nothing
    else, and returns.  The variables the command loop starts from
    differ from those of the listing by the serial read from the
    environment. *)
Theorem devices_lists_every_known (os : OS) (bus_at : nat -> list usb_ifc_info)
  (fuel : nat) (a0 : string) (rest : list string) :
  discovery os bus_at fuel (a0 :: "devices" :: rest) =
  (ExitDevices,
   map (fun info => Stdout (device_label info ++ tab ++ "fastboot" ++ newline)%string)
       (filter known_fastboot (bus_at O))) /\
  initial os = set_serial (sys_getenv os "ANDROID_SERIAL") startup.
Proof.
  split; [|reflexivity].
  unfold discovery.
  assert (Hmain : main os (a0 :: "devices" :: rest) = ExitDevices) by reflexivity.
  rewrite Hmain, list_devices_startup. reflexivity.
Qed.
